(** * stactools.noaa_hrrr.constants: forecast-hour sets, cycle types and
      forecast_valid template expansion

    A shallow embedding of [src/stactools/noaa_hrrr/constants.py] and the
    properties of it stated in the specification.

    Conventions of the embedding.
    - A Python [str] is a [list ascii]; a character is a code point below
      256, so the model covers templates written in Latin-1 (the packaged
      inventories are plain ASCII).  String literals are coerced.
    - A Python [int] is a [Z].  [int(s)] and [str(n)] are the unrestricted
      conversions of the language (base 10, no digit limit).
    - A raised exception is the [Raise] branch of [result]; a generator is
      the list of the values it yields, in order.
    - A [dict] keyed by forecast hour is a [gmap Z _]. *)

From Stdlib Require Import ZArith Ascii String DecimalString Lia.
From Stdlib Require DecimalZ DecimalPos.
From stdpp Require Import base option list gmap strings.

Local Open Scope string_scope.
Local Open Scope list_scope.
Local Open Scope Z_scope.

(** ** Strings *)

Abbreviation str := (list ascii).

Coercion list_ascii_of_string : string >-> list.

(** ** Exceptions *)

Inductive exn : Type :=
| ValueError (msg : str)
| KeyError
| AssertionError
| OverflowError (msg : str).

Inductive result (A : Type) : Type :=
| Ok (a : A)
| Raise (e : exn).

Arguments Ok {A} a.
Arguments Raise {A} e.

#[global] Instance result_ret : MRet result := fun A a => Ok a.

#[global] Instance result_bind : MBind result := fun A B k r =>
  match r with
  | Ok a => k a
  | Raise e => Raise e
  end.

(** [[f(x) for x in xs]]: evaluated left to right, the first exception
    abandons the whole comprehension. *)
Fixpoint list_comprehension {A B : Type} (f : A -> result B) (xs : list A)
  : result (list B) :=
  match xs with
  | [] => Ok []
  | x :: xs' =>
      y ← f x;
      ys ← list_comprehension f xs';
      Ok (y :: ys)
  end.

(** ** Character classes of the [re] module, on code points below 256 *)

Definition code (c : ascii) : Z := Z.of_N (N_of_ascii c).

(** [\d]: a decimal digit. *)
Definition is_digit (c : ascii) : bool :=
  (48 <=? code c) && (code c <=? 57).

(** [\w]: [str.isalnum] or an underscore.  Below 256 the alphanumerics
    are the ASCII letters and digits, the Latin-1 letters, the ordinal
    indicators, the micro sign, the superscript digits and the vulgar
    fractions. *)
Definition is_word (c : ascii) : bool :=
  let n := code c in
  is_digit c
  || ((65 <=? n) && (n <=? 90))
  || ((97 <=? n) && (n <=? 122))
  || (n =? 95)
  || (n =? 170) || (n =? 178) || (n =? 179) || (n =? 181)
  || (n =? 185) || (n =? 186)
  || ((188 <=? n) && (n <=? 190))
  || ((192 <=? n) && (n <=? 214))
  || ((216 <=? n) && (n <=? 246))
  || ((248 <=? n) && (n <=? 255)).

(** [.]: anything but a line feed. *)
Definition is_not_newline (c : ascii) : bool :=
  negb (code c =? 10).

(** ** [int] and [str] *)

Definition digit_value (c : ascii) : Z := code c - 48.

(** [int(s)] for a string of decimal digits; any other text is reported
    as [ValueError] (the code only converts digit runs). *)
Definition py_int (s : str) : result Z :=
  match s with
  | [] => Raise (ValueError "invalid literal for int()")
  | _ :: _ =>
      if forallb is_digit s
      then Ok (fold_left (fun acc c => acc * 10 + digit_value c) s 0)
      else Raise (ValueError "invalid literal for int()")
  end.

(** [str(n)], also what an f-string writes for an [int]. *)
Definition py_str (n : Z) : str :=
  list_ascii_of_string (NilZero.string_of_int (Z.to_int n)).

(** ** The fragment of [re] that the module uses

    Both patterns are sequences of literal characters and capture groups
    holding one greedy repetition of a character class.  [re.search] is a
    backtracking matcher: it tries the start positions from left to right,
    and at each one lets every group take the longest run first, giving
    characters back one at a time while the rest of the pattern fails. *)

Inductive char_class : Type := Digit | Word | NotNewline.

Definition in_class (k : char_class) (c : ascii) : bool :=
  match k with
  | Digit => is_digit c
  | Word => is_word c
  | NotNewline => is_not_newline c
  end.

Inductive atom : Type :=
| Lit (c : ascii)
| Group (k : char_class) (lo : nat).

Definition lits (s : str) : list atom := map Lit s.

(** Length of the longest prefix of [s] inside the class. *)
Fixpoint span (k : char_class) (s : str) : nat :=
  match s with
  | c :: s' => if in_class k c then S (span k s') else O
  | [] => O
  end.

(** A group that may take at most [n] characters of [s] and at least
    [lo]: the longest choice for which the continuation succeeds. *)
Fixpoint try_counts (cont : str -> option (list str)) (s : str)
  (lo n : nat) : option (list str) :=
  if (n <? lo)%nat then None
  else
    match cont (drop n s) with
    | Some groups => Some (take n s :: groups)
    | None =>
        match n with
        | O => None
        | S n' => try_counts cont s lo n'
        end
    end.

(** Match the pattern at the start of [s]; the result lists the groups. *)
Fixpoint match_here (p : list atom) (s : str) : option (list str) :=
  match p with
  | [] => Some []
  | Lit c :: p' =>
      match s with
      | c' :: s' => if decide (c = c') then match_here p' s' else None
      | [] => None
      end
  | Group k lo :: p' => try_counts (match_here p') s lo (span k s)
  end.

(** [re.search(p, s)] followed by [.groups()]. *)
Fixpoint search (p : list atom) (s : str) : option (list str) :=
  match match_here p s with
  | Some groups => Some groups
  | None =>
      match s with
      | _ :: s' => search p s'
      | [] => None
      end
  end.

(** The single-instant pattern of [from_template]: a group of one or more
    [\d], a space, a group of zero or more [.], then a space and the
    word fcst. *)
Definition FCST_PATTERN : list atom :=
  [Group Digit 1] ++ lits " " ++ [Group NotNewline 0] ++ lits " fcst".

(** The interval pattern of [from_template]: a group of one or more
    [\d], a hyphen, a second such group, a space, a group of one or more
    [\w], a space, and a group of zero or more [.]. *)
Definition INTERVAL_PATTERN : list atom :=
  [Group Digit 1] ++ lits "-" ++ [Group Digit 1] ++ lits " "
  ++ [Group Word 1] ++ lits " " ++ [Group NotNewline 0].

(** ** [str.replace], [str.split] and [range] *)

(** [s.startswith(p)] *)
Fixpoint startswith (p s : str) : bool :=
  match p, s with
  | [], _ => true
  | a :: p', b :: s' => bool_decide (a = b) && startswith p' s'
  | _ :: _, [] => false
  end.

(** [s.replace(old, new)] for a non-empty [old]: the occurrences are
    taken from left to right and do not overlap.  [skip] counts the
    characters of the occurrence being replaced that are still ahead. *)
Fixpoint replace_from (old new : str) (skip : nat) (s : str) : str :=
  match s with
  | [] => []
  | c :: s' =>
      match skip with
      | S k => replace_from old new k s'
      | O =>
          if startswith old s
          then new ++ replace_from old new (length old - 1)%nat s'
          else c :: replace_from old new O s'
      end
  end.

Definition replace (old new s : str) : str := replace_from old new O s.

(** [s.split(sep)] for a separator of one character. *)
Fixpoint split (sep : ascii) (s : str) : list str :=
  match s with
  | [] => [[]]
  | c :: s' =>
      if decide (c = sep) then [] :: split sep s'
      else
        match split sep s' with
        | piece :: pieces => (c :: piece) :: pieces
        | [] => [[c]]
        end
  end.

(** [range(a, b)] *)
Definition range (a b : Z) : list Z := seqZ a (b - a).

(** ** Module constants and enumerations *)

Definition EXTENDED_FORECAST_MAX_HOUR : Z := 48.
Definition STANDARD_FORECAST_MAX_HOUR : Z := 18.

(** [StrEnum]: the enumerations below are string enumerations; a member
    compares equal to its value. *)
Module StrEnum.

(** [cls.from_str(s)], for the members of [cls] in definition order. *)
Fixpoint from_str {T : Type} (members : list T) (value : T -> str) (s : str)
  : result T :=
  match members with
  | [] => Raise (ValueError ("Could not parse value from string: " ++ s))
  | member :: members' =>
      if decide (value member = s) then Ok member
      else from_str members' value s
  end.

End StrEnum.

Module CloudProvider.

Inductive t : Type := azure | aws | google.

Definition value (c : t) : str :=
  match c with
  | azure => "azure"
  | aws => "aws"
  | google => "google"
  end.

Definition members : list t := [azure; aws; google].

Definition from_str : str -> result t := StrEnum.from_str members value.

End CloudProvider.

Module Region.

Inductive t : Type := conus | alaska.

Definition value (r : t) : str :=
  match r with
  | conus => "conus"
  | alaska => "alaska"
  end.

Definition members : list t := [conus; alaska].

#[global] Instance eq_dec : EqDecision t.
Proof. solve_decision. Defined.

Definition from_str : str -> result t := StrEnum.from_str members value.

End Region.

Module Product.

Inductive t : Type := pressure | native | surface | sub_hourly.

Definition value (p : t) : str :=
  match p with
  | pressure => "prs"
  | native => "nat"
  | surface => "sfc"
  | sub_hourly => "subh"
  end.

Definition members : list t := [pressure; native; surface; sub_hourly].

#[global] Instance eq_dec : EqDecision t.
Proof. solve_decision. Defined.

Definition from_str : str -> result t := StrEnum.from_str members value.

End Product.

Module ForecastHourSet.

Inductive t : Type := FH00 | FH01_18 | FH00_01 | FH02_48.

Definition value (s : t) : str :=
  match s with
  | FH00 => "fh00"
  | FH01_18 => "fh01-18"
  | FH00_01 => "fh00-01"
  | FH02_48 => "fh02-48"
  end.

Definition members : list t := [FH00; FH01_18; FH00_01; FH02_48].

#[global] Instance eq_dec : EqDecision t.
Proof. solve_decision. Defined.

Definition from_str : str -> result t := StrEnum.from_str members value.

Definition from_forecast_hour_and_product (forecast_hour : Z)
  (product : Product.t) : result t :=
  if negb ((0 <=? forecast_hour) && (forecast_hour <=? 48))
  then Raise (ValueError "integer must within 0-48")
  else if decide (product = Product.sub_hourly)
  then Ok (if forecast_hour =? 0 then FH00 else FH01_18)
  else Ok (if forecast_hour <? 2 then FH00_01 else FH02_48).

(** The values the generator yields, in order. *)
Definition generate_forecast_hours (self : t) : result (list Z) :=
  forecast_hour_range ←
    list_comprehension py_int (split "-" (replace "fh" "" (value self)));
  match forecast_hour_range with
  | [h] => Ok [h]
  | [first; last] => Ok (range first (last + 1))
  | _ => Raise AssertionError
  end.

End ForecastHourSet.

(** The part of [datetime] the module reads. *)
Record datetime : Type := {
  year : Z;
  month : Z;
  day : Z;
  hour : Z;
}.

Module ForecastCycleType.

Record t : Type := {
  type : str;
  max_forecast_hour : Z;
}.

(** The dataclass constructor followed by [__post_init__]. *)
Definition new (type : str) : result t :=
  if negb (bool_decide (type ∈ [("standard" : str); ("extended" : str)]))
  then Raise (ValueError "Invalid forecast cycle type")
  else
    Ok {| type := type;
          max_forecast_hour :=
            if decide (type = "standard")
            then STANDARD_FORECAST_MAX_HOUR
            else EXTENDED_FORECAST_MAX_HOUR |}.

Definition from_timestamp (reference_datetime : datetime) : result t :=
  let extended := hour reference_datetime mod 6 =? 0 in
  new (if extended then "extended" else "standard").

Definition generate_forecast_hours (self : t) : list Z :=
  range 1 (max_forecast_hour self + 1).

Definition __str__ (self : t) : str := type self.

Definition validate_forecast_hour (self : t) (forecast_hour : Z)
  : result unit :=
  let valid :=
    (0 <=? forecast_hour) && (forecast_hour <=? max_forecast_hour self) in
  if negb valid
  then
    Raise (ValueError
      ("The provided forecast_hour (" ++ py_str forecast_hour
       ++ ") is not compatible with the forecast cycle type ("
       ++ __str__ self ++ ")"))
  else Ok ().

End ForecastCycleType.

Module ItemType.

Inductive t : Type := GRIB | INDEX.

Definition value (i : t) : str :=
  match i with
  | GRIB => "grib"
  | INDEX => "index"
  end.

Definition members : list t := [GRIB; INDEX].

Definition from_str : str -> result t := StrEnum.from_str members value.

End ItemType.

(** ** True division

    [n / d] on two [int]s is the double nearest to the exact quotient
    (ties to even), and [OverflowError] when that is beyond the doubles.
    [from_template] divides only when 24 divides the forecast hour, where
    the exact quotient is an integer [q]; a double of magnitude [2^53] or
    more is an integer, so [int(...)] of the result gives it back. *)
Definition nearest_double (q : Z) : result Z :=
  let a := Z.abs q in
  if a <? 2 ^ 53 then Ok q
  else
    let e := Z.log2 a - 52 in
    let m := Z.shiftr a e in
    let r := a - Z.shiftl m e in
    let half := 2 ^ (e - 1) in
    let m' := if (half <? r) || ((r =? half) && Z.odd m) then m + 1 else m in
    let v := Z.shiftl m' e in
    if 2 ^ 1024 <=? v
    then Raise (OverflowError "integer division result too large for a float")
    else Ok (Z.sgn q * v).

Module Variable_.

Record t : Type := {
  row_number : Z;
  level_layer : str;
  parameter : str;
  forecast_valid : str;
  description : str;
}.

(** The [forecast_valid] text that [from_template] computes. *)
Definition expand_forecast_valid (forecast_hour : Z)
  (forecast_valid_template : str) : result str :=
  if decide (forecast_valid_template = "analysis") then
    Ok (if forecast_hour =? 0 then ("analysis" : str)
        else py_str forecast_hour ++ " hour fcst")
  else
    match search FCST_PATTERN forecast_valid_template with
    | Some groups =>
        match groups with
        | [forecast_template_time; time_unit] =>
            forecast_time ←
              (if decide (time_unit = "min") then
                 n ← py_int forecast_template_time;
                 Ok (n + (forecast_hour - 1) * 60)
               else Ok forecast_hour);
            Ok (py_str forecast_time ++ " " ++ time_unit ++ " fcst")
        | _ => Raise (ValueError "not enough values to unpack")
        end
    | None =>
        match search INTERVAL_PATTERN forecast_valid_template with
        | Some groups =>
            match groups with
            | [template_start_time; template_end_time; time_unit; stat] =>
                '(start_time, end_time, time_unit) ←
                  (if decide (time_unit = "min") then
                     s ← py_int template_start_time;
                     e ← py_int template_end_time;
                     Ok (s + (forecast_hour - 2) * 60,
                         e + (forecast_hour - 2) * 60,
                         time_unit)
                   else
                     let time_unit : str := "hour" in
                     let end_time := forecast_hour in
                     let start_time :=
                       if decide (template_start_time = "1")
                       then forecast_hour - 1 else 0 in
                     if forecast_hour mod 24 =? 0 then
                       end_time ← nearest_double (forecast_hour / 24);
                       Ok (0, end_time, ("day" : str))
                     else Ok (start_time, end_time, time_unit));
                Ok (py_str start_time ++ "-" ++ py_str end_time
                    ++ " " ++ time_unit ++ " " ++ stat)
            | _ => Raise (ValueError "not enough values to unpack")
            end
        | None =>
            Raise (ValueError
              (forecast_valid_template
               ++ " could not be parsed into a forecast_valid string"))
        end
    end.

Definition from_template (forecast_hour : Z) (forecast_valid_template : str)
  (row_number : Z) (level_layer parameter description : str) : result t :=
  forecast_valid ←
    expand_forecast_valid forecast_hour forecast_valid_template;
  Ok {| row_number := row_number;
        level_layer := level_layer;
        parameter := parameter;
        forecast_valid := forecast_valid;
        description := description |}.

End Variable_.

(** ** The template inventory and [CycleRunConfig] *)

(** One object of a packaged inventory file, as [json.load] returns it. *)
Module Template.

Record t : Type := {
  row_number : Z;
  level_layer : str;
  parameter : str;
  forecast_valid_template : str;
  description : str;
}.

End Template.

Definition PRODUCT_FORECAST_HOUR_SETS (product : Product.t)
  : list ForecastHourSet.t :=
  match product with
  | Product.surface => [ForecastHourSet.FH00_01; ForecastHourSet.FH02_48]
  | Product.pressure => [ForecastHourSet.FH00_01; ForecastHourSet.FH02_48]
  | Product.native => [ForecastHourSet.FH00_01; ForecastHourSet.FH02_48]
  | Product.sub_hourly => [ForecastHourSet.FH00; ForecastHourSet.FH01_18]
  end.

(** [{k: f(k) for k in keys}]: a later key overwrites an equal earlier
    one, the first exception abandons the whole comprehension. *)
Fixpoint dict_comprehension {V : Type} (f : Z -> result V) (keys : list Z)
  (acc : gmap Z V) : result (gmap Z V) :=
  match keys with
  | [] => Ok acc
  | k :: keys' =>
      v ← f k;
      dict_comprehension f keys' (<[k := v]> acc)
  end.

Section Inventory.

(** The content of the data file that [INVENTORY_JSON_FORMAT] names for a
    region, a product and a forecast hour set.  The files are packaged
    data of the repository and are not part of the sources embedded
    here. *)
Variable inventory_json :
  Region.t -> Product.t -> ForecastHourSet.t -> list Template.t.

Definition inventory_key : Type :=
  (Region.t * Product.t * ForecastHourSet.t)%type.

(** The module-level loops that fill the dictionary, as the list of its
    assignments in order. *)
Definition TEMPLATE_INVENTORY : list (inventory_key * list Template.t) :=
  region ← Region.members;
  product ← Product.members;
  forecast_hour_set ← PRODUCT_FORECAST_HOUR_SETS product;
  [((region, product, forecast_hour_set),
    inventory_json region product forecast_hour_set)].

(** [TEMPLATE_INVENTORY[key]]: the last assignment to the key. *)
Definition inventory_lookup (key : inventory_key)
  : result (list Template.t) :=
  match list_find (fun kv => kv.1 = key) (reverse TEMPLATE_INVENTORY) with
  | Some (_, (_, templates)) => Ok templates
  | None => Raise KeyError
  end.

Record CycleRunConfig : Type := {
  region : Region.t;
  product : Product.t;
  forecast_hour_set : ForecastHourSet.t;
  inventory : gmap Z (list Variable_.t);
}.

(** [Variable.from_template(forecast_hour=forecast_hour, **template)] *)
Definition expand_template (forecast_hour : Z) (template : Template.t)
  : result Variable_.t :=
  Variable_.from_template forecast_hour
    (Template.forecast_valid_template template)
    (Template.row_number template)
    (Template.level_layer template)
    (Template.parameter template)
    (Template.description template).

(** The dataclass constructor followed by [__post_init__]. *)
Definition CycleRunConfig_new (region : Region.t) (product : Product.t)
  (forecast_hour_set : ForecastHourSet.t) : result CycleRunConfig :=
  forecast_hours ← ForecastHourSet.generate_forecast_hours forecast_hour_set;
  inventory ←
    dict_comprehension
      (fun forecast_hour =>
         templates ← inventory_lookup (region, product, forecast_hour_set);
         list_comprehension (expand_template forecast_hour) templates)
      forecast_hours ∅;
  Ok {| region := region;
        product := product;
        forecast_hour_set := forecast_hour_set;
        inventory := inventory |}.

End Inventory.

(** ** Format strings

    [fmt.format] with keyword arguments, for the format strings of the
    module: text and
    replacement fields that name a keyword argument, without conversion
    or format specification (doubled braces are not part of the model).
    [field] holds the name of the field being read, if any. *)
Fixpoint format_from (kwargs : list (str * str)) (field : option str)
  (fmt : str) : result str :=
  match fmt with
  | [] =>
      match field with
      | None => Ok []
      | Some _ => Raise (ValueError "expected '}' before end of string")
      end
  | c :: fmt' =>
      match field with
      | None =>
          if decide (c = "{"%char) then format_from kwargs (Some []) fmt'
          else if decide (c = "}"%char)
          then Raise (ValueError "Single '}' encountered in format string")
          else
            rest ← format_from kwargs None fmt';
            Ok (c :: rest)
      | Some name =>
          if decide (c = "}"%char) then
            match list_find (fun kv => kv.1 = name) kwargs with
            | Some (_, (_, text)) =>
                rest ← format_from kwargs None fmt';
                Ok (text ++ rest)
            | None => Raise KeyError
            end
          else format_from kwargs (Some (name ++ [c])) fmt'
      end
  end.

Definition format (fmt : str) (kwargs : list (str * str)) : result str :=
  format_from kwargs None fmt.

Definition INVENTORY_JSON_FORMAT : str :=
  "inventory__{region}__{product}__{forecast_hours}.json".

Definition COLLECTION_ID_BASE : str := "noaa-hrrr".

Definition COLLECTION_ID_FORMAT : str :=
  COLLECTION_ID_BASE ++ "-{region}-{product}-{forecast_hour_set}".

(** The name, under [DATA_DIR], of the file that the module-level loops
    open for a key of [TEMPLATE_INVENTORY]. *)
Definition inventory_file_name (region : Region.t) (product : Product.t)
  (forecast_hour_set : ForecastHourSet.t) : result str :=
  format INVENTORY_JSON_FORMAT
    [(("region" : str), Region.value region);
     (("product" : str), Product.value product);
     (("forecast_hours" : str), ForecastHourSet.value forecast_hour_set)].

(** The collection id that [test_create_collection] expects:
    [COLLECTION_ID_FORMAT.format(region=region.value, product=product.value,
    forecast_hour_set=forecast_hour_set.value)]. *)
Definition collection_id (region : Region.t) (product : Product.t)
  (forecast_hour_set : ForecastHourSet.t) : result str :=
  format COLLECTION_ID_FORMAT
    [(("region" : str), Region.value region);
     (("product" : str), Product.value product);
     (("forecast_hour_set" : str), ForecastHourSet.value forecast_hour_set)].

(** ** The cycle run hours of the regions *)

(** [range(start, stop, step)] for a positive [step]. *)
Definition range_step (start stop step : Z) : list Z :=
  (fun i => start + i * step) <$> seqZ 0 ((stop - start + step - 1) / step).

(** [REGION_CONFIGS[region].cycle_run_hours]; the other fields of a
    [RegionConfig] are projected coordinates and are left out. *)
Definition cycle_run_hours (region : Region.t) : list Z :=
  match region with
  | Region.conus => range 0 24
  | Region.alaska => range_step 0 24 3
  end.

(** ** Item ids *)

(** A number below 100 written with two digits. *)
Definition two_digits (n : Z) : str :=
  [ascii_of_N (Z.to_N (48 + n / 10)); ascii_of_N (Z.to_N (48 + n mod 10))].




(** * Specification-side notions *)

(** ** What a pattern denotes

    [Matches p s groups]: the pattern matches a prefix of [s], its groups
    holding [groups].  This is the meaning of the pattern, without any
    strategy for finding the match. *)
Inductive Matches : list atom -> str -> list str -> Prop :=
| Matches_nil (s : str) : Matches [] s []
| Matches_lit (c : ascii) (p : list atom) (s : str) (groups : list str) :
    Matches p s groups -> Matches (Lit c :: p) (c :: s) groups
| Matches_group (k : char_class) (lo : nat) (p : list atom) (u s : str)
    (groups : list str) :
    forallb (in_class k) u = true ->
    (lo <= length u)%nat ->
    Matches p s groups ->
    Matches (Group k lo :: p) (u ++ s) (u :: groups).

(** The pattern matches somewhere in [t]: what [re.search] looks for. *)
Definition occurs (p : list atom) (t : str) : Prop :=
  exists (before rest : str) (groups : list str),
    t = before ++ rest /\ Matches p rest groups.

(** A template that one of the three families of [from_template]
    accepts. *)
Definition recognized (t : str) : Prop :=
  t = "analysis" \/ occurs FCST_PATTERN t \/ occurs INTERVAL_PATTERN t.

(** ** The template shapes of the specification *)

(** A number as the templates write it: one or more decimal digits. *)
Definition digits (s : str) : bool :=
  negb (bool_decide (s = [])) && forallb is_digit s.

(** A unit word of an interval template. *)
Definition word (s : str) : bool :=
  negb (bool_decide (s = [])) && forallb is_word s.

(** Text without a line feed. *)
Definition one_line (s : str) : bool := forallb is_not_newline s.

(** [needle] occurs in [hay]. *)
Fixpoint contains (needle hay : str) : bool :=
  startswith needle hay
  || match hay with
     | [] => false
     | _ :: hay' => contains needle hay'
     end.

(** The template ["<N> <unit> fcst"]. *)
Definition single_instant (N time_unit : str) : str :=
  N ++ " " ++ time_unit ++ " fcst".

(** The template ["<N1>-<N2> <unit> <stat>"]. *)
Definition interval (N1 N2 time_unit stat : str) : str :=
  N1 ++ "-" ++ N2 ++ " " ++ time_unit ++ " " ++ stat.

(** The value of a number of a template. *)
Definition number (N : str) : Z :=
  fold_left (fun acc c => acc * 10 + digit_value c) N 0.

(** A character other than a space. *)
Definition not_space (c : ascii) : bool := negb (bool_decide (c = " "%char)).

(** The first and the last hour that the name of a set spells out. *)
Definition hour_bounds (s : ForecastHourSet.t) : Z * Z :=
  match s with
  | ForecastHourSet.FH00 => (0, 0)
  | ForecastHourSet.FH01_18 => (1, 18)
  | ForecastHourSet.FH00_01 => (0, 1)
  | ForecastHourSet.FH02_48 => (2, 48)
  end.

(** The message of the cycle-bound error. *)
Definition cycle_bound_message (forecast_hour : Z) (type : str) : str :=
  "The provided forecast_hour (" ++ py_str forecast_hour
  ++ ") is not compatible with the forecast cycle type (" ++ type ++ ")".




(** * Properties *)

(** ** Samples of the embedding *)

Example py_str_samples :
  py_str 0 = "0" /\ py_str 48 = "48" /\ py_str (-30) = "-30".
Proof. repeat split. Qed.

Example py_int_samples :
  py_int "007" = Ok 7 /\ py_int "18" = Ok 18
  /\ py_int "1x" = Raise (ValueError "invalid literal for int()").
Proof. repeat split. Qed.

Example search_samples :
  search FCST_PATTERN "3 hour fcst" = Some [("3" : str); ("hour" : str)]
  /\ search FCST_PATTERN "0-15 min fcst" = Some [("15" : str); ("min" : str)]
  /\ search FCST_PATTERN "0-1 hour acc" = None
  /\ search INTERVAL_PATTERN "0-1 hour acc"
     = Some [("0" : str); ("1" : str); ("hour" : str); ("acc" : str)].
Proof. repeat split. Qed.

Example generate_forecast_hours_samples :
  ForecastHourSet.generate_forecast_hours ForecastHourSet.FH00 = Ok [0]
  /\ ForecastHourSet.generate_forecast_hours ForecastHourSet.FH00_01
     = Ok [0; 1]
  /\ ForecastHourSet.generate_forecast_hours ForecastHourSet.FH01_18
     = Ok (seqZ 1 18).
Proof. repeat split. Qed.

Example nearest_double_samples :
  nearest_double 2 = Ok 2
  /\ nearest_double (2 ^ 53 + 1) = Ok (2 ^ 53)
  /\ nearest_double (2 ^ 53 + 3) = Ok (2 ^ 53 + 4)
  /\ nearest_double (- (2 ^ 54 + 2)) = Ok (- 2 ^ 54).
Proof. repeat split. Qed.

Example from_template_samples :
  Variable_.expand_forecast_valid 0 "analysis" = Ok ("analysis" : str)
  /\ Variable_.expand_forecast_valid 7 "analysis" = Ok ("7 hour fcst" : str)
  /\ Variable_.expand_forecast_valid 5 "3 hour fcst" = Ok ("5 hour fcst" : str)
  /\ Variable_.expand_forecast_valid 2 "30 min fcst" = Ok ("90 min fcst" : str)
  /\ Variable_.expand_forecast_valid 3 "0-15 min acc"
     = Ok ("60-75 min acc" : str)
  /\ Variable_.expand_forecast_valid 5 "1-2 hour acc"
     = Ok ("4-5 hour acc" : str)
  /\ Variable_.expand_forecast_valid 24 "0-1 hour acc"
     = Ok ("0-1 day acc" : str).
Proof. repeat split. Qed.

(** ** The matcher against the meaning of the patterns *)

Lemma span_le (k : char_class) (s : str) : (span k s <= length s)%nat.
Proof.
  induction s as [|c s IH]; simpl; [lia|].
  destruct (in_class k c); simpl; lia.
Qed.

Lemma span_take (k : char_class) (s : str) (n : nat) :
  (n <= span k s)%nat -> forallb (in_class k) (take n s) = true.
Proof.
  revert n. induction s as [|c s IH]; intros [|n] Hn; simpl in *; try done.
  destruct (in_class k c) eqn:Hc; simpl; [|lia].
  apply IH. lia.
Qed.

Lemma span_all (k : char_class) (u s : str) :
  forallb (in_class k) u = true -> (length u <= span k (u ++ s))%nat.
Proof.
  induction u as [|c u IH]; simpl; [lia|].
  intros [Hc Hu]%andb_prop. rewrite Hc. specialize (IH Hu). lia.
Qed.

Lemma span_stop (k : char_class) (u : str) (c : ascii) (s : str) :
  forallb (in_class k) u = true -> in_class k c = false ->
  span k (u ++ c :: s) = length u.
Proof.
  induction u as [|a u IH]; simpl; intros Hu Hc; [by rewrite Hc|].
  apply andb_prop in Hu as [-> Hu]. by rewrite IH.
Qed.

Lemma span_end (k : char_class) (u : str) :
  forallb (in_class k) u = true -> span k u = length u.
Proof.
  induction u as [|a u IH]; simpl; [done|].
  intros [-> Hu]%andb_prop. by rewrite IH.
Qed.

(** The loop over the lengths of a group returns the longest length, not
    above [n], at which the continuation succeeds. *)
Lemma try_counts_longest (cont : str -> option (list str)) (s : str)
  (lo n n0 : nat) (groups : list str) :
  (lo <= n0 <= n)%nat ->
  cont (drop n0 s) = Some groups ->
  (forall m, (n0 < m <= n)%nat -> cont (drop m s) = None) ->
  try_counts cont s lo n = Some (take n0 s :: groups).
Proof.
  revert n0. induction n as [|n IH]; intros n0 Hn Hok Hfail.
  - assert (n0 = 0)%nat as -> by lia. assert (lo = 0)%nat as -> by lia.
    simpl in *. by rewrite Hok.
  - destruct (decide (n0 = S n)) as [->|Hne].
    + cbn [try_counts]. destruct (Nat.ltb_spec (S n) lo); [lia|].
      by rewrite Hok.
    + cbn [try_counts]. destruct (Nat.ltb_spec (S n) lo); [lia|].
      rewrite (Hfail (S n)) by lia.
      apply IH; [lia|done|]. intros m Hm. apply Hfail. lia.
Qed.

Lemma try_counts_none (cont : str -> option (list str)) (s : str)
  (lo n : nat) :
  (forall m, (lo <= m <= n)%nat -> cont (drop m s) = None) ->
  try_counts cont s lo n = None.
Proof.
  induction n as [|n IH]; intros Hfail; cbn [try_counts].
  - destruct (Nat.ltb_spec 0 lo); [done|]. rewrite Hfail; [done|lia].
  - destruct (Nat.ltb_spec (S n) lo); [done|]. rewrite Hfail by lia.
    apply IH. intros m Hm. apply Hfail. lia.
Qed.

Lemma try_counts_some (cont : str -> option (list str)) (s : str)
  (lo n : nat) (result : list str) :
  try_counts cont s lo n = Some result ->
  exists (m : nat) (groups : list str),
    (lo <= m <= n)%nat /\ cont (drop m s) = Some groups
    /\ result = take m s :: groups.
Proof.
  induction n as [|n IH]; cbn [try_counts].
  - destruct (Nat.ltb_spec 0 lo); [done|].
    destruct (cont (drop 0 s)) as [groups|] eqn:Hc; [|done].
    intros [= <-]. exists 0%nat, groups. split; [lia|done].
  - destruct (Nat.ltb_spec (S n) lo); [done|].
    destruct (cont (drop (S n) s)) as [groups|] eqn:Hc.
    + intros [= <-]. exists (S n), groups. split; [lia|done].
    + intros (m & groups & Hm & Hok & ->)%IH.
      exists m, groups. split; [lia|done].
Qed.

(** Soundness: what the matcher returns is a match. *)
Lemma match_here_sound (p : list atom) (s : str) (groups : list str) :
  match_here p s = Some groups -> Matches p s groups.
Proof.
  revert s groups. induction p as [|[c|k lo] p IH]; intros s groups; simpl.
  - intros [= <-]. constructor.
  - destruct s as [|c' s]; [done|].
    destruct (decide (c = c')) as [<-|]; [|done].
    intros H. constructor. by apply IH.
  - intros (m & gs & Hm & Hok & ->)%try_counts_some.
    rewrite <- (take_drop m s) at 1. constructor.
    + apply span_take. lia.
    + pose proof (span_le k s). rewrite length_take. lia.
    + by apply IH.
Qed.

(** Completeness: where a match exists, the matcher finds one. *)
Lemma match_here_complete (p : list atom) (s : str) (groups : list str) :
  Matches p s groups -> exists groups', match_here p s = Some groups'.
Proof.
  induction 1 as [s|c p s groups _ [gs IH]|k lo p u s groups Hu Hlo _ [gs IH]];
    simpl.
  - by eexists.
  - destruct (decide (c = c)); [|done]. by eexists.
  - destruct (try_counts (match_here p) (u ++ s) lo (span k (u ++ s)))
      as [r|] eqn:Ht; [by eexists|].
    exfalso.
    assert (match_here p (drop (length u) (u ++ s)) = None) as Hnone.
    { clear IH. revert Ht. generalize (span_all k u s Hu).
      generalize (span k (u ++ s)) as n. intros n Hn.
      induction n as [|n IHn]; cbn [try_counts].
      - destruct (Nat.ltb_spec 0 lo); [lia|].
        assert (length u = 0)%nat as -> by lia.
        by destruct (match_here p (drop 0 (u ++ s))).
      - destruct (Nat.ltb_spec (S n) lo); [lia|].
        destruct (match_here p (drop (S n) (u ++ s))) eqn:Hd; [done|].
        destruct (decide (length u = S n)) as [->|]; [done|].
        intros Ht. apply IHn; [lia|done]. }
    rewrite drop_app_length in Hnone. congruence.
Qed.

Lemma search_some (p : list atom) (t : str) (groups : list str) :
  search p t = Some groups ->
  exists before rest : str,
    t = before ++ rest /\ match_here p rest = Some groups.
Proof.
  induction t as [|c t IH]; simpl.
  - destruct (match_here p []) eqn:Hm; [|done].
    intros [= <-]. by exists [], [].
  - destruct (match_here p (c :: t)) eqn:Hm.
    + intros [= <-]. by exists [], (c :: t).
    + intros (before & rest & -> & Hr)%IH. by exists (c :: before), rest.
Qed.

Lemma search_finds (p : list atom) (before rest : str) (groups : list str) :
  match_here p rest = Some groups ->
  exists groups', search p (before ++ rest) = Some groups'.
Proof.
  intros Hm. induction before as [|c before [gs IH]]; simpl.
  - destruct rest; simpl; rewrite Hm; by eexists.
  - destruct (match_here p (c :: before ++ rest)); by eexists.
Qed.

(** [re.search] succeeds exactly on the strings in which the pattern
    occurs. *)
Lemma search_occurs (p : list atom) (t : str) :
  (exists groups, search p t = Some groups) <-> occurs p t.
Proof.
  split.
  - intros [groups (before & rest & -> & Hm)%search_some].
    exists before, rest, groups. split; [done|]. by apply match_here_sound.
  - intros (before & rest & groups & -> & [gs Hm]%match_here_complete).
    by eapply search_finds.
Qed.

Lemma search_none (p : list atom) (t : str) :
  search p t = None <-> ~ occurs p t.
Proof.
  rewrite <- search_occurs. destruct (search p t) as [gs|]; split.
  - done.
  - intros []. by eexists.
  - by intros _ [gs ?].
  - done.
Qed.

Lemma search_here (p : list atom) (t : str) (groups : list str) :
  match_here p t = Some groups -> search p t = Some groups.
Proof. intros H. destruct t; simpl; by rewrite H. Qed.



(** A group that runs up to a character outside its class takes the
    whole run when the rest of the pattern matches behind it. *)
Lemma match_group_run (k : char_class) (lo : nat) (p : list atom)
  (u : str) (c : ascii) (s : str) (groups : list str) :
  forallb (in_class k) u = true -> in_class k c = false ->
  (lo <= length u)%nat ->
  match_here p (c :: s) = Some groups ->
  match_here (Group k lo :: p) (u ++ c :: s) = Some (u :: groups).
Proof.
  intros Hu Hc Hlo Hp. cbn [match_here]. rewrite span_stop by done.
  rewrite (try_counts_longest _ _ lo _ (length u) groups).
  - by rewrite take_app_length.
  - lia.
  - by rewrite drop_app_length.
  - intros m Hm. lia.
Qed.

(** A group that ends the pattern takes everything, up to the end of the
    text. *)
Lemma match_group_last (k : char_class) (lo : nat) (u : str) :
  forallb (in_class k) u = true -> (lo <= length u)%nat ->
  match_here [Group k lo] u = Some [u].
Proof.
  intros Hu Hlo. cbn [match_here]. rewrite span_end by done.
  rewrite (try_counts_longest _ _ lo _ (length u) []).
  - by rewrite firstn_all.
  - lia.
  - done.
  - intros m Hm. lia.
Qed.

(** ** Lists cut at the first character outside a class *)


(** Where a text that starts with a run of [P] up to [b] is cut at some
    [a] outside [P], the cut is at [b] or behind it. *)
Lemma cut_first {A : Type} (P : A -> bool) (u v : list A) (a b : A)
  (x y : list A) :
  forallb P v = true -> P a = false ->
  u ++ a :: x = v ++ b :: y ->
  (u = v /\ a = b /\ x = y) \/ (exists w, u = v ++ b :: w /\ y = w ++ a :: x).
Proof.
  revert u. induction v as [|d v IH]; intros [|c u]; simpl; intros Hv Ha Heq.
  - injection Heq as -> ->. by left.
  - injection Heq as -> <-. right. by exists u.
  - injection Heq as -> _. apply andb_prop in Hv as [Hv _]. congruence.
  - injection Heq as -> Heq. apply andb_prop in Hv as [_ Hv].
    destruct (IH u Hv Ha Heq) as [(-> & -> & ->)|(w & -> & ->)]; [by left|].
    right. by exists w.
Qed.

Lemma startswith_spec (p s : str) :
  startswith p s = true <-> exists rest, s = p ++ rest.
Proof.
  revert s. induction p as [|a p IH]; intros s; simpl.
  - split; [by exists s|done].
  - destruct s as [|b s]; [split; [done|by intros [? ?]]|].
    rewrite andb_true_iff, bool_decide_eq_true, IH. split.
    + intros [-> [rest ->]]. by exists rest.
    + intros [rest [= -> ->]]. split; [done|by exists rest].
Qed.

Lemma contains_spec (needle hay : str) :
  contains needle hay = true <->
  exists before rest, hay = before ++ needle ++ rest.
Proof.
  induction hay as [|c hay IH]; simpl.
  - rewrite orb_false_r, startswith_spec. split.
    + intros [rest ->]. by exists [], rest.
    + intros (before & rest & H). destruct before; [by exists rest|done].
  - rewrite orb_true_iff, startswith_spec, IH. split.
    + intros [[rest ->]|(before & rest & ->)];
        [by exists [], rest|by exists (c :: before), rest].
    + intros ([|d before] & rest & H); simpl in H.
      * left. by exists rest.
      * injection H as -> ->. right. by exists before, rest.
Qed.

(** ** The two patterns of [from_template] *)

Lemma Matches_nil_inv (s : str) (groups : list str) :
  Matches [] s groups -> groups = [].
Proof. by inversion 1. Qed.

Lemma Matches_lit_inv (c : ascii) (p : list atom) (s : str)
  (groups : list str) :
  Matches (Lit c :: p) s groups ->
  exists s', s = c :: s' /\ Matches p s' groups.
Proof. inversion 1; subst. by eexists. Qed.

Lemma Matches_group_inv (k : char_class) (lo : nat) (p : list atom)
  (s : str) (groups : list str) :
  Matches (Group k lo :: p) s groups ->
  exists (u s' : str) (groups' : list str),
    s = u ++ s' /\ groups = u :: groups'
    /\ forallb (in_class k) u = true /\ (lo <= length u)%nat
    /\ Matches p s' groups'.
Proof. inversion 1; subst. by eexists _, _, _. Qed.

Lemma digits_spec (N : str) :
  digits N = true <-> N <> [] /\ forallb is_digit N = true.
Proof.
  unfold digits. rewrite andb_true_iff, negb_true_iff, bool_decide_eq_false.
  done.
Qed.

Lemma word_spec (u : str) :
  word u = true <-> u <> [] /\ forallb is_word u = true.
Proof.
  unfold word. rewrite andb_true_iff, negb_true_iff, bool_decide_eq_false.
  done.
Qed.

Lemma nonempty_length {A : Type} (l : list A) : l <> [] -> (1 <= length l)%nat.
Proof. destruct l; simpl; [done|lia]. Qed.

Lemma length_nonempty {A : Type} (l : list A) : (1 <= length l)%nat -> l <> [].
Proof. destruct l; simpl; [lia|done]. Qed.

(** What a match of the single-instant pattern looks like. *)
Lemma Matches_fcst (rest : str) (groups : list str) :
  Matches FCST_PATTERN rest groups ->
  exists N time_unit after : str,
    rest = N ++ " " ++ time_unit ++ " fcst" ++ after
    /\ digits N = true /\ one_line time_unit = true /\ groups = [N; time_unit].
Proof.
  unfold FCST_PATTERN, lits. simpl.
  intros (N & ? & ? & -> & -> & HN & HNlen
          & (? & -> & (time_unit & ? & ? & -> & -> & Hunit & _
          & (? & -> & (? & -> & (? & -> & (? & -> & (after & ->
          & ->%Matches_nil_inv
          )%Matches_lit_inv)%Matches_lit_inv)%Matches_lit_inv
          )%Matches_lit_inv)%Matches_lit_inv
          )%Matches_group_inv)%Matches_lit_inv)%Matches_group_inv.
  exists N, time_unit, after. repeat split; try done.
  apply digits_spec. split; [by apply length_nonempty|done].
Qed.

(** What a match of the interval pattern looks like. *)
Lemma Matches_interval (rest : str) (groups : list str) :
  Matches INTERVAL_PATTERN rest groups ->
  exists N1 N2 time_unit stat after : str,
    rest = N1 ++ "-" ++ N2 ++ " " ++ time_unit ++ " " ++ stat ++ after
    /\ digits N1 = true /\ digits N2 = true /\ word time_unit = true
    /\ one_line stat = true /\ groups = [N1; N2; time_unit; stat].
Proof.
  unfold INTERVAL_PATTERN, lits. simpl.
  intros (N1 & ? & ? & -> & -> & HN1 & HN1len
          & (? & -> & (N2 & ? & ? & -> & -> & HN2 & HN2len
          & (? & -> & (time_unit & ? & ? & -> & -> & Hunit & Hunitlen
          & (? & -> & (stat & after & ? & -> & -> & Hstat & _
          & ->%Matches_nil_inv
          )%Matches_group_inv)%Matches_lit_inv
          )%Matches_group_inv)%Matches_lit_inv
          )%Matches_group_inv)%Matches_lit_inv)%Matches_group_inv.
  exists N1, N2, time_unit, stat, after. repeat split; try done.
  - apply digits_spec. split; [by apply length_nonempty|done].
  - apply digits_spec. split; [by apply length_nonempty|done].
  - apply word_spec. split; [by apply length_nonempty|done].
Qed.

Lemma match_here_lit (c : ascii) (p : list atom) (s : str) :
  match_here (Lit c :: p) (c :: s) = match_here p s.
Proof. simpl. by destruct (decide (c = c)). Qed.

Lemma match_here_group (k : char_class) (lo : nat) (p : list atom) (s : str) :
  match_here (Group k lo :: p) s
  = try_counts (match_here p) s lo (span k s).
Proof. done. Qed.

Lemma FCST_PATTERN_atoms :
  FCST_PATTERN
  = [Group Digit 1; Lit " "; Group NotNewline 0;
     Lit " "; Lit "f"; Lit "c"; Lit "s"; Lit "t"].
Proof. done. Qed.

Lemma INTERVAL_PATTERN_atoms :
  INTERVAL_PATTERN
  = [Group Digit 1; Lit "-"; Group Digit 1; Lit " ";
     Group Word 1; Lit " "; Group NotNewline 0].
Proof. done. Qed.

#[local] Arguments match_here : simpl never.

(** The single-instant pattern at the start of a template of the
    single-instant shape: the first group is the number, the second the
    unit. *)
Lemma match_here_single_instant (N time_unit : str) :
  digits N = true -> one_line time_unit = true ->
  match_here FCST_PATTERN (single_instant N time_unit) = Some [N; time_unit].
Proof.
  intros [HN HNd]%digits_spec Hu.
  rewrite FCST_PATTERN_atoms. unfold single_instant. simpl.
  apply match_group_run; [done|done|by apply nonempty_length|].
  rewrite match_here_lit, match_here_group.
  assert (forallb (in_class NotNewline) (time_unit ++ " fcst") = true) as Hall.
  { rewrite forallb_app. unfold one_line in Hu.
    change (in_class NotNewline) with is_not_newline. by rewrite Hu. }
  rewrite span_end by done.
  rewrite (try_counts_longest _ _ 0 _ (length time_unit) []).
  - by rewrite take_app_length.
  - rewrite length_app. simpl. lia.
  - by rewrite drop_app_length.
  - intros m Hm. rewrite length_app in Hm. simpl in Hm.
    rewrite drop_app_ge by lia.
    destruct (m - length time_unit)%nat as [|[|[|[|[|[|j]]]]]] eqn:Hj;
      try lia; done.
Qed.

(** The interval pattern at the start of a template of the interval
    shape: the groups are the two numbers, the unit and the statistic. *)
Lemma match_here_interval (N1 N2 time_unit stat : str) :
  digits N1 = true -> digits N2 = true -> word time_unit = true ->
  one_line stat = true ->
  match_here INTERVAL_PATTERN (interval N1 N2 time_unit stat)
  = Some [N1; N2; time_unit; stat].
Proof.
  intros [H1 H1d]%digits_spec [H2 H2d]%digits_spec [Hu Huw]%word_spec Hs.
  rewrite INTERVAL_PATTERN_atoms. unfold interval. simpl.
  apply match_group_run; [done|done|by apply nonempty_length|].
  rewrite match_here_lit.
  apply match_group_run; [done|done|by apply nonempty_length|].
  rewrite match_here_lit.
  apply match_group_run; [done|done|by apply nonempty_length|].
  rewrite match_here_lit.
  apply match_group_last; [done|simpl; lia].
Qed.

(** ** Numbers of a template *)

Lemma py_int_digits (N : str) : digits N = true -> py_int N = Ok (number N).
Proof.
  intros [HN Hd]%digits_spec. destruct N as [|c N]; [done|].
  unfold py_int. by rewrite Hd.
Qed.

Lemma digits_not_analysis (N rest : str) :
  digits N = true -> N ++ rest <> "analysis".
Proof.
  intros [HN Hd]%digits_spec. destruct N as [|c N]; [done|].
  simpl in *. intros [= -> _]. done.
Qed.

Lemma nearest_double_exact (q : Z) :
  Z.abs q < 2 ^ 53 -> nearest_double q = Ok q.
Proof.
  intros Hq. unfold nearest_double.
  by destruct (Z.ltb_spec (Z.abs q) (2 ^ 53)); [|lia].
Qed.

(** ** Spaces in a template *)

Lemma digit_not_space (s : str) :
  forallb is_digit s = true -> forallb not_space s = true.
Proof.
  induction s as [|c s IH]; simpl; [done|].
  intros [Hc Hs]%andb_prop. rewrite IH by done. rewrite andb_true_r.
  unfold not_space.
  destruct (bool_decide_reflect (c = " "%char)) as [->|]; done.
Qed.

Lemma word_not_space (s : str) :
  forallb is_word s = true -> forallb not_space s = true.
Proof.
  induction s as [|c s IH]; simpl; [done|].
  intros [Hc Hs]%andb_prop. rewrite IH by done. rewrite andb_true_r.
  unfold not_space.
  destruct (bool_decide_reflect (c = " "%char)) as [->|]; done.
Qed.

Lemma contains_intro (needle before rest : str) :
  contains needle (before ++ needle ++ rest) = true.
Proof. apply contains_spec. by exists before, rest. Qed.

(** The single-instant pattern finds nothing in a template of the
    interval shape unless the word fcst follows a space behind the unit. *)
Lemma search_fcst_interval (N1 N2 time_unit stat : str) :
  digits N1 = true -> digits N2 = true -> word time_unit = true ->
  contains " fcst" (" " ++ stat) = false ->
  search FCST_PATTERN (interval N1 N2 time_unit stat) = None.
Proof.
  intros [_ H1]%digits_spec [_ H2]%digits_spec [_ Hw]%word_spec Hc.
  apply search_none.
  intros (before & rest & groups & Heq
          & (N & u & after & -> & _ & _ & _)%Matches_fcst).
  assert (forall pre post : str,
            (" " ++ stat : str) <> pre ++ " fcst" ++ post) as Hno.
  { intros pre post Hin. rewrite Hin, contains_intro in Hc. done. }
  assert (forallb not_space (N1 ++ "-" ++ N2) = true) as Hhead.
  { rewrite forallb_app. simpl. by rewrite !digit_not_space by done. }
  apply word_not_space in Hw.
  assert ((before ++ N) ++ " "%char :: (u ++ " fcst" ++ after)
          = (N1 ++ "-" ++ N2) ++ " "%char :: (time_unit ++ " "%char :: stat))
    as Hcut.
  { unfold interval in Heq. rewrite <- !app_assoc. simpl in *.
    by rewrite <- Heq. }
  clear Heq.
  destruct (cut_first not_space (before ++ N) (N1 ++ "-" ++ N2)
              " "%char " "%char (u ++ " fcst" ++ after)
              (time_unit ++ " "%char :: stat) Hhead eq_refl Hcut)
    as [(_ & _ & Heq)|(w & _ & Heq)].
  - destruct (cut_first not_space u time_unit " "%char " "%char
                ("fcst" ++ after) stat Hw eq_refl Heq)
      as [(_ & _ & Hs)|(w & _ & Hs)].
    + apply (Hno [] after). simpl. by rewrite <- Hs.
    + apply (Hno (" "%char :: w) after). simpl. by rewrite Hs.
  - symmetry in Heq.
    destruct (cut_first not_space w time_unit " "%char " "%char
                (u ++ " fcst" ++ after) stat Hw eq_refl Heq)
      as [(_ & _ & Hs)|(w' & _ & Hs)].
    + apply (Hno (" "%char :: u) after). simpl. by rewrite <- Hs.
    + apply (Hno (" "%char :: w' ++ " "%char :: u) after). simpl. rewrite Hs.
      by rewrite <- !app_assoc.
Qed.



(** ** Occurrences of the patterns *)

Lemma Matches_fcst_intro (N time_unit after : str) :
  digits N = true -> one_line time_unit = true ->
  Matches FCST_PATTERN (N ++ " " ++ time_unit ++ " fcst" ++ after)
    [N; time_unit].
Proof.
  intros [HN HNd]%digits_spec Hu. rewrite FCST_PATTERN_atoms. simpl.
  constructor; [done|by apply nonempty_length|].
  constructor. constructor; [done|simpl; lia|].
  repeat constructor.
Qed.

Lemma Matches_interval_intro (N1 N2 time_unit stat after : str) :
  digits N1 = true -> digits N2 = true -> word time_unit = true ->
  one_line stat = true ->
  Matches INTERVAL_PATTERN
    (N1 ++ "-" ++ N2 ++ " " ++ time_unit ++ " " ++ stat ++ after)
    [N1; N2; time_unit; stat].
Proof.
  intros [H1 H1d]%digits_spec [H2 H2d]%digits_spec [Hu Huw]%word_spec Hs.
  rewrite INTERVAL_PATTERN_atoms. simpl.
  constructor; [done|by apply nonempty_length|]. constructor.
  constructor; [done|by apply nonempty_length|]. constructor.
  constructor; [done|by apply nonempty_length|]. constructor.
  constructor; [done|simpl; lia|]. constructor.
Qed.

(** The templates of the two shapes are recognized, and so is every text
    that holds one of them: the patterns are searched for, not anchored. *)
Lemma recognized_shapes (before after N N1 N2 time_unit stat : str) :
  digits N = true -> digits N1 = true -> digits N2 = true ->
  one_line time_unit = true -> one_line stat = true ->
  recognized (before ++ single_instant N time_unit ++ after)
  /\ (word time_unit = true ->
      recognized (before ++ interval N1 N2 time_unit stat ++ after)).
Proof.
  intros HN H1 H2 Hu Hs. split.
  - right. left. exists before, (single_instant N time_unit ++ after).
    eexists. split; [done|]. unfold single_instant.
    rewrite <- !app_assoc. by apply Matches_fcst_intro.
  - intros Hw. right. right.
    exists before, (interval N1 N2 time_unit stat ++ after).
    eexists. split; [done|]. unfold interval.
    rewrite <- !app_assoc. by apply Matches_interval_intro.
Qed.

Example recognized_inside_a_text :
  Variable_.expand_forecast_valid 5 "about 3 hour fcst or so"
  = Ok ("5 hour fcst" : str)
  /\ Variable_.expand_forecast_valid 5 "from 1-2 hour acc on"
     = Ok ("4-5 hour acc on" : str).
Proof. by split. Qed.

Lemma word_one_line (s : str) :
  forallb is_word s = true -> forallb is_not_newline s = true.
Proof.
  induction s as [|c s IH]; simpl; [done|].
  intros [Hc Hs]%andb_prop. rewrite IH by done. rewrite andb_true_r.
  unfold is_not_newline. destruct (Z.eqb_spec (code c) 10) as [H10|]; [|done].
  unfold is_word, is_digit in Hc. rewrite H10 in Hc. done.
Qed.

(** In a template of the interval shape the single-instant pattern occurs
    exactly when the statistic starts with fcst or holds " fcst". *)
Lemma search_fcst_interval_iff (N1 N2 time_unit stat : str) :
  digits N1 = true -> digits N2 = true -> word time_unit = true ->
  one_line stat = true ->
  search FCST_PATTERN (interval N1 N2 time_unit stat) = None
  <-> contains " fcst" (" " ++ stat) = false.
Proof.
  intros H1 H2 Hw Hs. split; [|by apply search_fcst_interval].
  intros Hnone. destruct (contains " fcst" (" " ++ stat)) eqn:Hc; [|done].
  exfalso. apply search_none in Hnone. apply Hnone.
  apply contains_spec in Hc as (pre & post & Hc).
  exists (N1 ++ "-"),
    (N2 ++ " " ++ (time_unit ++ pre) ++ " fcst" ++ post),
    [N2; time_unit ++ pre].
  split.
  - unfold interval. rewrite <- !app_assoc. do 4 f_equal.
    simpl in *. by rewrite Hc.
  - apply Matches_fcst_intro; [done|].
    unfold one_line. rewrite forallb_app. apply andb_true_intro. split.
    + apply word_one_line. by apply word_spec in Hw as [_ ?].
    + assert (one_line (" " ++ stat) = true) as Hline by done.
      rewrite Hc in Hline. unfold one_line in Hline.
      rewrite forallb_app in Hline. by apply andb_prop in Hline as [? _].
Qed.

(** ** What [from_template] writes for the template shapes *)

Lemma expand_single_instant (forecast_hour : Z) (N time_unit : str) :
  digits N = true -> one_line time_unit = true ->
  Variable_.expand_forecast_valid forecast_hour (single_instant N time_unit)
  = Ok (py_str (if decide (time_unit = "min")
                then number N + (forecast_hour - 1) * 60
                else forecast_hour)
        ++ " " ++ time_unit ++ " fcst").
Proof.
  intros HN Hu. unfold Variable_.expand_forecast_valid.
  destruct (decide (single_instant N time_unit = "analysis")) as [Ha|_].
  { by apply digits_not_analysis in Ha. }
  rewrite (search_here _ _ _ (match_here_single_instant N time_unit HN Hu)).
  destruct (decide (time_unit = "min")) as [->|Hmin]; [|done].
  by rewrite (py_int_digits N HN).
Qed.

Lemma expand_interval (forecast_hour : Z) (N1 N2 time_unit stat : str) :
  digits N1 = true -> digits N2 = true -> word time_unit = true ->
  one_line stat = true -> contains " fcst" (" " ++ stat) = false ->
  Variable_.expand_forecast_valid forecast_hour (interval N1 N2 time_unit stat)
  = if decide (time_unit = "min") then
      Ok (py_str (number N1 + (forecast_hour - 2) * 60) ++ "-"
          ++ py_str (number N2 + (forecast_hour - 2) * 60)
          ++ " min " ++ stat)
    else if forecast_hour mod 24 =? 0 then
      end_time ← nearest_double (forecast_hour / 24);
      Ok ("0-" ++ py_str end_time ++ " day " ++ stat)
    else
      Ok (py_str (if decide (N1 = "1") then forecast_hour - 1 else 0)
          ++ "-" ++ py_str forecast_hour ++ " hour " ++ stat).
Proof.
  intros H1 H2 Hu Hs Hc. unfold Variable_.expand_forecast_valid.
  destruct (decide (interval N1 N2 time_unit stat = "analysis")) as [Ha|_].
  { by apply digits_not_analysis in Ha. }
  rewrite (search_fcst_interval N1 N2 time_unit stat H1 H2 Hu Hc).
  rewrite (search_here _ _ _
             (match_here_interval N1 N2 time_unit stat H1 H2 Hu Hs)).
  destruct (decide (time_unit = "min")) as [->|Hmin].
  { by rewrite (py_int_digits N1 H1), (py_int_digits N2 H2). }
  destruct (forecast_hour mod 24 =? 0); [|done].
  by destruct (nearest_double (forecast_hour / 24)).
Qed.


Lemma search_fcst_groups (t : str) (groups : list str) :
  search FCST_PATTERN t = Some groups ->
  exists N time_unit : str,
    groups = [N; time_unit] /\ digits N = true /\ one_line time_unit = true.
Proof.
  intros (before & rest & -> & Hm%match_here_sound)%search_some.
  apply Matches_fcst in Hm as (N & time_unit & after & _ & HN & Hu & ->).
  by exists N, time_unit.
Qed.

Lemma search_interval_groups (t : str) (groups : list str) :
  search INTERVAL_PATTERN t = Some groups ->
  exists N1 N2 time_unit stat : str,
    groups = [N1; N2; time_unit; stat] /\ digits N1 = true /\ digits N2 = true
    /\ word time_unit = true /\ one_line stat = true.
Proof.
  intros (before & rest & -> & Hm%match_here_sound)%search_some.
  apply Matches_interval in Hm
    as (N1 & N2 & time_unit & stat & after & _ & H1 & H2 & Hu & Hs & ->).
  by exists N1, N2, time_unit, stat.
Qed.

Lemma not_recognized_search (t : str) :
  ~ recognized t <->
  t <> "analysis" /\ search FCST_PATTERN t = None
  /\ search INTERVAL_PATTERN t = None.
Proof.
  unfold recognized. rewrite !search_none. tauto.
Qed.

(** A recognized template is expanded at every forecast hour whose
    quotient by 24 stays within the doubles that are exact. *)
Lemma expand_recognized (forecast_hour : Z) (t : str) :
  recognized t -> Z.abs forecast_hour < 24 * 2 ^ 53 ->
  exists forecast_valid : str,
    Variable_.expand_forecast_valid forecast_hour t = Ok forecast_valid.
Proof.
  intros Hrec Hfh. unfold Variable_.expand_forecast_valid.
  destruct (decide (t = "analysis")) as [->|Hna]; [by eexists|].
  destruct (search FCST_PATTERN t) as [groups|] eqn:Hf.
  { apply search_fcst_groups in Hf as (N & time_unit & -> & HN & _).
    destruct (decide (time_unit = "min")); [|by eexists].
    rewrite (py_int_digits N HN). by eexists. }
  destruct (search INTERVAL_PATTERN t) as [groups|] eqn:Hi.
  { apply search_interval_groups in Hi
      as (N1 & N2 & time_unit & stat & -> & H1 & H2 & _ & _).
    destruct (decide (time_unit = "min")).
    { rewrite (py_int_digits N1 H1), (py_int_digits N2 H2). by eexists. }
    destruct (Z.eqb_spec (forecast_hour mod 24) 0) as [Hday|_]; [|by eexists].
    rewrite nearest_double_exact; [by eexists|].
    apply Z.abs_lt. apply Z.abs_lt in Hfh.
    Z.div_mod_to_equations. lia. }
  exfalso. by apply (not_recognized_search t).
Qed.

(** For a recognized template the parse error is never raised, at any
    forecast hour. *)
Lemma expand_recognized_no_parse_error (forecast_hour : Z) (t : str) :
  recognized t ->
  Variable_.expand_forecast_valid forecast_hour t
  <> Raise (ValueError
       (t ++ " could not be parsed into a forecast_valid string")).
Proof.
  intros Hrec. unfold Variable_.expand_forecast_valid.
  destruct (decide (t = "analysis")) as [->|Hna]; [done|].
  destruct (search FCST_PATTERN t) as [groups|] eqn:Hf.
  { apply search_fcst_groups in Hf as (N & time_unit & -> & HN & _).
    destruct (decide (time_unit = "min")); [|done].
    by rewrite (py_int_digits N HN). }
  destruct (search INTERVAL_PATTERN t) as [groups|] eqn:Hi.
  { apply search_interval_groups in Hi
      as (N1 & N2 & time_unit & stat & -> & H1 & H2 & _ & _).
    destruct (decide (time_unit = "min")).
    { by rewrite (py_int_digits N1 H1), (py_int_digits N2 H2). }
    destruct (forecast_hour mod 24 =? 0); [|done].
    unfold nearest_double.
    repeat match goal with |- context [if ?b then _ else _] => destruct b end;
      done. }
  exfalso. by apply (not_recognized_search t).
Qed.

Lemma from_template_forecast_valid (forecast_hour : Z) (t : str)
  (row_number : Z) (level_layer parameter description : str) :
  Variable_.from_template forecast_hour t row_number level_layer parameter
    description
  = match Variable_.expand_forecast_valid forecast_hour t with
    | Ok forecast_valid =>
        Ok {| Variable_.row_number := row_number;
              Variable_.level_layer := level_layer;
              Variable_.parameter := parameter;
              Variable_.forecast_valid := forecast_valid;
              Variable_.description := description |}
    | Raise e => Raise e
    end.
Proof. done. Qed.

(** ** C1: single-instant templates with a unit other than min *)




(** ** C3: interval templates with a unit other than min *)

(** C3, as the specification states it, fails: the template
    "0-1 hour fcst" has the interval shape, and at forecast hour 5 the
    text is "5 hour fcst", where the specification has "0-5 hour fcst".  The
    single-instant pattern is searched for first and is found behind the
    hyphen. *)
Lemma C3_counterexample :
  digits "0" = true /\ digits "1" = true /\ word "hour" = true
  /\ ("hour" : str) <> "min"
  /\ Variable_.from_template 5 (interval "0" "1" "hour" "fcst")
       12 "surface" "APCP" "Total precipitation"
     = Ok {| Variable_.row_number := 12;
             Variable_.level_layer := "surface";
             Variable_.parameter := "APCP";
             Variable_.forecast_valid := "5 hour fcst";
             Variable_.description := "Total precipitation" |}
  /\ ("5 hour fcst" : str)
     <> py_str 0 ++ "-" ++ py_str 5 ++ " hour " ++ "fcst".
Proof. by repeat split. Qed.

(** Beyond the doubles that are exact, the day count of the override is
    the nearest double and no longer the quotient. *)
Example day_override_rounds :
  Variable_.expand_forecast_valid (24 * (2 ^ 53 + 1)) "0-1 hour acc"
  = Ok ("0-9007199254740992 day acc" : str)
  /\ 24 * (2 ^ 53 + 1) / 24 = 9007199254740993.
Proof. by split. Qed.

(** C3 (amended): for every template "<N1>-<N2> <unit> <stat>" whose unit
    is a word other than "min" and whose statistic is one line of text
    that neither starts with "fcst" nor holds " fcst" (so that the
    single-instant pattern, tried first, finds nothing), and every
    forecast hour of magnitude below 24 * 2^53: the text is
    "{start}-{forecast_hour} hour {stat}", where start is
    forecast_hour - 1 if [N1] is "1" and 0 otherwise, unless the forecast
    hour is a multiple of 24, where it is
    "0-{forecast_hour / 24} day {stat}". *)
Theorem C3_interval_hours_and_days (forecast_hour : Z)
  (N1 N2 time_unit stat : str)
  (row_number : Z) (level_layer parameter description : str) :
  digits N1 = true -> digits N2 = true -> word time_unit = true ->
  time_unit <> "min" -> one_line stat = true ->
  contains " fcst" (" " ++ stat) = false ->
  Z.abs forecast_hour < 24 * 2 ^ 53 ->
  Variable_.from_template forecast_hour (interval N1 N2 time_unit stat)
    row_number level_layer parameter description
  = Ok {| Variable_.row_number := row_number;
          Variable_.level_layer := level_layer;
          Variable_.parameter := parameter;
          Variable_.forecast_valid :=
            if forecast_hour mod 24 =? 0
            then "0-" ++ py_str (forecast_hour / 24) ++ " day " ++ stat
            else
              py_str (if decide (N1 = "1") then forecast_hour - 1 else 0)
              ++ "-" ++ py_str forecast_hour ++ " hour " ++ stat;
          Variable_.description := description |}.
Proof.
  intros H1 H2 Hu Hmin Hs Hc Hfh. rewrite from_template_forecast_valid.
  rewrite (expand_interval forecast_hour N1 N2 time_unit stat H1 H2 Hu Hs Hc).
  destruct (decide (time_unit = "min")); [done|].
  destruct (Z.eqb_spec (forecast_hour mod 24) 0) as [Hday|_]; [|done].
  rewrite nearest_double_exact; [done|].
  apply Z.abs_lt. apply Z.abs_lt in Hfh. Z.div_mod_to_equations. lia.
Qed.

(** The template "0-1 hour acc" at forecast hour 24. *)
Lemma C3_interval_hours_and_days_witness :
  digits "0" = true /\ digits "1" = true /\ word "hour" = true
  /\ ("hour" : str) <> "min" /\ one_line "acc" = true
  /\ contains " fcst" (" " ++ "acc") = false
  /\ Z.abs 24 < 24 * 2 ^ 53
  /\ Variable_.from_template 24 (interval "0" "1" "hour" "acc")
    12 "surface" "APCP" "Total precipitation"
  = Ok {| Variable_.row_number := 12;
          Variable_.level_layer := "surface";
          Variable_.parameter := "APCP";
          Variable_.forecast_valid :=
            if 24 mod 24 =? 0
            then "0-" ++ py_str (24 / 24) ++ " day " ++ "acc"
            else
              py_str (if decide (("0" : str) = "1") then 24 - 1 else 0)
              ++ "-" ++ py_str 24 ++ " hour " ++ "acc";
          Variable_.description := "Total precipitation" |}.
Proof.
  do 3 (split; [reflexivity|]). split; [discriminate|].
  do 3 (split; [reflexivity|]).
  apply (C3_interval_hours_and_days 24 "0" "1" "hour" "acc");
    [reflexivity|reflexivity|reflexivity|discriminate|reflexivity
    |reflexivity|reflexivity].
Defined.

Example C3_hour_case :
  Variable_.expand_forecast_valid 5 (interval "1" "2" "hour" "acc")
  = Ok ("4-5 hour acc" : str)
  /\ Variable_.expand_forecast_valid 5 (interval "0" "1" "hour" "acc")
     = Ok ("0-5 hour acc" : str)
  /\ Variable_.expand_forecast_valid 48 (interval "0" "1" "hour" "acc")
     = Ok ("0-2 day acc" : str).
Proof. by repeat split. Qed.

(** ** C4: minute templates *)




Example C4_samples :
  Variable_.expand_forecast_valid 2 "30 min fcst" = Ok ("90 min fcst" : str)
  /\ Variable_.expand_forecast_valid 3 "0-15 min acc"
     = Ok ("60-75 min acc" : str)
  /\ Variable_.expand_forecast_valid 0 "30 min fcst"
     = Ok ("-30 min fcst" : str).
Proof. by repeat split. Qed.

(** ** C9: templates that no family accepts *)



(** The templates that are refused are exactly the unrecognized ones. *)
Lemma parse_error_iff (forecast_hour : Z) (t : str) :
  Variable_.expand_forecast_valid forecast_hour t
  = Raise (ValueError
      (t ++ " could not be parsed into a forecast_valid string"))
  <-> ~ recognized t.
Proof.
  split.
  - intros Herr Hrec.
    by apply (expand_recognized_no_parse_error forecast_hour t Hrec).
  - intros (Hna & Hf & Hi)%not_recognized_search.
    unfold Variable_.expand_forecast_valid.
    destruct (decide (t = "analysis")); [done|]. by rewrite Hf, Hi.
Qed.

(** ** C10: an interval template that ends in fcst *)



(** ** Forecast hour sets *)

Lemma generate_forecast_hours_range (s : ForecastHourSet.t) :
  ForecastHourSet.generate_forecast_hours s
  = Ok (seqZ (hour_bounds s).1 ((hour_bounds s).2 - (hour_bounds s).1 + 1)).
Proof. by destruct s. Qed.

Lemma generate_forecast_hours_elem (s : ForecastHourSet.t) (h : Z) :
  (exists hours, ForecastHourSet.generate_forecast_hours s = Ok hours
                 /\ h ∈ hours)
  <-> (hour_bounds s).1 <= h <= (hour_bounds s).2.
Proof.
  rewrite generate_forecast_hours_range. split.
  - intros (hours & [= <-] & Hin). apply elem_of_seqZ in Hin. lia.
  - intros Hh. eexists. split; [done|]. apply elem_of_seqZ. lia.
Qed.

(** ** C2: the forecast hour sets of a product *)

(** C2, as the specification states it, fails: for the sub-hourly product
    and forecast hour 19, which lies in [0,48], the set selected is
    FH01-18, and the hours that this set enumerates stop at 18. *)
Lemma C2_counterexample :
  0 <= 19 <= 48
  /\ ForecastHourSet.from_forecast_hour_and_product 19 Product.sub_hourly
     = Ok ForecastHourSet.FH01_18
  /\ ForecastHourSet.generate_forecast_hours ForecastHourSet.FH01_18
     = Ok (seqZ 1 18)
  /\ 19 ∉ seqZ 1 18.
Proof.
  repeat split; try done. rewrite elem_of_seqZ. lia.
Qed.

(** C2 (amended): for the surface, pressure and native products and every
    forecast hour in [0,48], and for the sub-hourly product and every
    forecast hour in [0,18], [from_forecast_hour_and_product] selects one
    set (sub-hourly: FH00 at hour 0, else FH01-18; the other products:
    FH00-01 below hour 2, else FH02-48); the hour is among the hours that
    the selected set enumerates, and among those of no other set of the
    product.  The sets of a product partition [0,48], those of the
    sub-hourly product [0,18]. *)
Theorem C2_forecast_hour_sets_partition (product : Product.t) (h : Z) :
  0 <= h <= (if decide (product = Product.sub_hourly) then 18 else 48) ->
  exists selected : ForecastHourSet.t,
    ForecastHourSet.from_forecast_hour_and_product h product = Ok selected
    /\ selected
       = (if decide (product = Product.sub_hourly)
          then (if h =? 0 then ForecastHourSet.FH00
                else ForecastHourSet.FH01_18)
          else (if h <? 2 then ForecastHourSet.FH00_01
                else ForecastHourSet.FH02_48))
    /\ selected ∈ PRODUCT_FORECAST_HOUR_SETS product
    /\ forall s : ForecastHourSet.t,
         s ∈ PRODUCT_FORECAST_HOUR_SETS product ->
         ((exists hours,
             ForecastHourSet.generate_forecast_hours s = Ok hours
             /\ h ∈ hours)
          <-> s = selected).
Proof.
  intros Hh.
  exists (if decide (product = Product.sub_hourly)
          then (if h =? 0 then ForecastHourSet.FH00
                else ForecastHourSet.FH01_18)
          else (if h <? 2 then ForecastHourSet.FH00_01
                else ForecastHourSet.FH02_48)).
  split; [|split; [done|split]].
  - unfold ForecastHourSet.from_forecast_hour_and_product.
    assert ((0 <=? h) && (h <=? 48) = true) as ->.
    { destruct (decide (product = Product.sub_hourly)); lia. }
    by destruct (decide (product = Product.sub_hourly)).
  - destruct product; simpl; destruct (h <? 2), (h =? 0);
      rewrite !elem_of_cons; tauto.
  - intros s Hs. rewrite generate_forecast_hours_elem.
    destruct product; simpl in Hh, Hs |- *;
      rewrite !elem_of_cons, elem_of_nil in Hs;
      destruct Hs as [->|[->|[]]]; simpl;
      destruct (Z.ltb_spec h 2), (Z.eqb_spec h 0);
      (split; [intros ?; (done || lia)|intros ?; (lia || done)]).
Qed.

(** The sub-hourly product at forecast hour 18. *)
Lemma C2_forecast_hour_sets_partition_witness :
  0 <= 18
    <= (if decide (Product.sub_hourly = Product.sub_hourly) then 18 else 48)
  /\ exists selected : ForecastHourSet.t,
    ForecastHourSet.from_forecast_hour_and_product 18 Product.sub_hourly
    = Ok selected
    /\ selected
       = (if decide (Product.sub_hourly = Product.sub_hourly)
          then (if 18 =? 0 then ForecastHourSet.FH00
                else ForecastHourSet.FH01_18)
          else (if 18 <? 2 then ForecastHourSet.FH00_01
                else ForecastHourSet.FH02_48))
    /\ selected ∈ PRODUCT_FORECAST_HOUR_SETS Product.sub_hourly
    /\ forall s : ForecastHourSet.t,
         s ∈ PRODUCT_FORECAST_HOUR_SETS Product.sub_hourly ->
         ((exists hours,
             ForecastHourSet.generate_forecast_hours s = Ok hours
             /\ 18 ∈ hours)
          <-> s = selected).
Proof.
  split; [simpl; lia|].
  apply (C2_forecast_hour_sets_partition Product.sub_hourly 18).
  simpl. lia.
Defined.

(** ** C8: the range check of the set selection *)

(** C8: [from_forecast_hour_and_product] raises the range error exactly
    for the forecast hours outside [0,48]; inside [0,48] it returns a set,
    whatever the product. *)
Theorem C8_range_error (forecast_hour : Z) (product : Product.t) :
  (ForecastHourSet.from_forecast_hour_and_product forecast_hour product
   = Raise (ValueError "integer must within 0-48")
   <-> ~ 0 <= forecast_hour <= 48)
  /\ ((exists selected : ForecastHourSet.t,
         ForecastHourSet.from_forecast_hour_and_product forecast_hour product
         = Ok selected)
      <-> 0 <= forecast_hour <= 48).
Proof.
  unfold ForecastHourSet.from_forecast_hour_and_product.
  destruct (Z.leb_spec 0 forecast_hour), (Z.leb_spec forecast_hour 48);
    simpl; (split; split); try done; try lia.
  all: try (intros [? ?]; done).
  all: try (destruct (decide (product = Product.sub_hourly)); done).
  all: intros _; destruct (decide (product = Product.sub_hourly)); by eexists.
Qed.

Example C8_samples :
  ForecastHourSet.from_forecast_hour_and_product 49 Product.surface
  = Raise (ValueError "integer must within 0-48")
  /\ ForecastHourSet.from_forecast_hour_and_product (-1) Product.sub_hourly
     = Raise (ValueError "integer must within 0-48")
  /\ ForecastHourSet.from_forecast_hour_and_product 48 Product.native
     = Ok ForecastHourSet.FH02_48.
Proof. by repeat split. Qed.

(** ** C6: the cycle type of a run *)

(** C6: for a run that starts at an hour in [0,23], [from_timestamp]
    gives the cycle type "extended" if the hour is a multiple of 6 and
    "standard" otherwise. *)
Theorem C6_cycle_classification (reference_datetime : datetime) :
  0 <= hour reference_datetime <= 23 ->
  exists cycle : ForecastCycleType.t,
    ForecastCycleType.from_timestamp reference_datetime = Ok cycle
    /\ (ForecastCycleType.type cycle = "extended"
        <-> hour reference_datetime mod 6 = 0)
    /\ (ForecastCycleType.type cycle = "standard"
        <-> hour reference_datetime mod 6 <> 0).
Proof.
  intros _. unfold ForecastCycleType.from_timestamp.
  destruct (Z.eqb_spec (hour reference_datetime mod 6) 0) as [H6|H6];
    (eexists; split; [reflexivity|]); simpl; split; split; done.
Qed.

(** A run that starts at 06:00. *)
Lemma C6_cycle_classification_witness :
  0 <= hour {| year := 2024; month := 1; day := 1; hour := 6 |} <= 23
  /\ exists cycle : ForecastCycleType.t,
       ForecastCycleType.from_timestamp
         {| year := 2024; month := 1; day := 1; hour := 6 |}
       = Ok cycle
       /\ (ForecastCycleType.type cycle = "extended"
           <-> hour {| year := 2024; month := 1; day := 1; hour := 6 |}
               mod 6 = 0)
       /\ (ForecastCycleType.type cycle = "standard"
           <-> hour {| year := 2024; month := 1; day := 1; hour := 6 |}
               mod 6 <> 0).
Proof.
  split; [simpl; lia|].
  apply (C6_cycle_classification
           {| year := 2024; month := 1; day := 1; hour := 6 |}).
  simpl. lia.
Defined.

Example C6_samples :
  ForecastCycleType.from_timestamp
    {| year := 2024; month := 5; day := 1; hour := 3 |}
  = Ok {| ForecastCycleType.type := "standard";
          ForecastCycleType.max_forecast_hour := 18 |}
  /\ ForecastCycleType.from_timestamp
       {| year := 2024; month := 5; day := 1; hour := 18 |}
     = Ok {| ForecastCycleType.type := "extended";
             ForecastCycleType.max_forecast_hour := 48 |}.
Proof. by split. Qed.

(** ** C7: the forecast hours of a cycle type *)


Example C7_one_past_the_bound :
  (c ← ForecastCycleType.new "standard";
   ForecastCycleType.validate_forecast_hour c 19)
  = Raise (ValueError
      "The provided forecast_hour (19) is not compatible with the forecast cycle type (standard)")
  /\ (c ← ForecastCycleType.new "extended";
      ForecastCycleType.validate_forecast_hour c 49)
     = Raise (ValueError
         "The provided forecast_hour (49) is not compatible with the forecast cycle type (extended)")
  /\ (c ← ForecastCycleType.new "standard";
      ForecastCycleType.validate_forecast_hour c 18) = Ok ()
  /\ (c ← ForecastCycleType.new "extended";
      ForecastCycleType.validate_forecast_hour c 48) = Ok ()
  /\ ForecastCycleType.new "hourly"
     = Raise (ValueError "Invalid forecast cycle type").
Proof. by repeat split. Qed.

(** ** Comprehensions *)



Lemma list_comprehension_raise {A B : Type} (f : A -> result B)
  (good : list A) (bad : A) (rest : list A) (e : exn) :
  Forall (fun x => exists y, f x = Ok y) good -> f bad = Raise e ->
  list_comprehension f (good ++ bad :: rest) = Raise e.
Proof.
  intros Hgood Hbad. induction Hgood as [|x good [y Hx] _ IH]; simpl.
  - by rewrite Hbad.
  - by rewrite Hx, IH.
Qed.


(** ** C5: the inventory of a cycle run configuration *)

Section InventoryProperties.

Variable inventory_json :
  Region.t -> Product.t -> ForecastHourSet.t -> list Template.t.

(** The registered triples are those of [PRODUCT_FORECAST_HOUR_SETS], and
    each holds the content of its own file. *)
Lemma inventory_lookup_registered (region : Region.t) (product : Product.t)
  (forecast_hour_set : ForecastHourSet.t) :
  inventory_lookup inventory_json (region, product, forecast_hour_set)
  = if bool_decide (forecast_hour_set ∈ PRODUCT_FORECAST_HOUR_SETS product)
    then Ok (inventory_json region product forecast_hour_set)
    else Raise KeyError.
Proof. by destruct region, product, forecast_hour_set. Qed.



(** No inventory is built in part: where the registered sequence holds a
    template that is not recognized, behind recognized ones, the
    construction raises the parse error of that template. *)
Lemma CycleRunConfig_new_unrecognized (region : Region.t)
  (product : Product.t) (forecast_hour_set : ForecastHourSet.t)
  (good : list Template.t) (bad : Template.t) (rest : list Template.t) :
  inventory_lookup inventory_json (region, product, forecast_hour_set)
  = Ok (good ++ bad :: rest) ->
  Forall (fun template =>
            recognized (Template.forecast_valid_template template))
    good ->
  ~ recognized (Template.forecast_valid_template bad) ->
  CycleRunConfig_new inventory_json region product forecast_hour_set
  = Raise (ValueError
      (Template.forecast_valid_template bad
       ++ " could not be parsed into a forecast_valid string")).
Proof.
  intros Hreg Hgood Hbad. unfold CycleRunConfig_new.
  rewrite generate_forecast_hours_range.
  assert (exists (h : Z) (hours : list Z),
            seqZ (hour_bounds forecast_hour_set).1
              ((hour_bounds forecast_hour_set).2
               - (hour_bounds forecast_hour_set).1 + 1) = h :: hours
            /\ Z.abs h < 24 * 2 ^ 53) as (h & hours & -> & Hh).
  { destruct forecast_hour_set; simpl; eexists _, _; split; try reflexivity;
      lia. }
  simpl. rewrite Hreg. simpl.
  rewrite (list_comprehension_raise _ good bad rest
             (ValueError
                (Template.forecast_valid_template bad
                 ++ " could not be parsed into a forecast_valid string"))).
  - done.
  - eapply Forall_impl; [exact Hgood|]. intros template Ht. simpl in Ht.
    destruct (expand_recognized h _ Ht Hh) as [fv Hfv].
    unfold expand_template. rewrite from_template_forecast_valid, Hfv.
    by eexists.
  - unfold expand_template. rewrite from_template_forecast_valid.
    apply (parse_error_iff h) in Hbad. by rewrite Hbad.
Qed.

End InventoryProperties.




(** * Further properties of the module *)

(** ** String enumerations *)

(** X1: [from_str] returns a member whose value is the string asked for,
    and raises, with a message that ends in that string, exactly when no
    member has it as value. *)
Theorem X1_from_str_contract {T : Type} (members : list T)
  (value : T -> str) (s : str) :
  match StrEnum.from_str members value s with
  | Ok member => member ∈ members /\ value member = s
  | Raise e =>
      e = ValueError ("Could not parse value from string: " ++ s)
      /\ forall member : T, member ∈ members -> value member <> s
  end.
Proof.
  induction members as [|m members IH]; simpl.
  - split; [done|]. intros member Hm. by apply elem_of_nil in Hm.
  - destruct (decide (value m = s)) as [Hv|Hv].
    + split; [apply elem_of_cons; by left|done].
    + destruct (StrEnum.from_str members value s) as [member|e].
      * destruct IH as [Hin Hval].
        split; [apply elem_of_cons; by right|done].
      * destruct IH as [-> Hall]. split; [done|].
        intros member [->|Hin]%elem_of_cons; [done|by apply Hall].
Qed.

(** X2: in each of the five enumerations the values are pairwise
    distinct, so that [from_str] gives back every member from its
    value. *)
Theorem X2_from_str_value_round_trip :
  (forall r : Region.t, Region.from_str (Region.value r) = Ok r)
  /\ (forall p : Product.t, Product.from_str (Product.value p) = Ok p)
  /\ (forall s : ForecastHourSet.t,
        ForecastHourSet.from_str (ForecastHourSet.value s) = Ok s)
  /\ (forall c : CloudProvider.t,
        CloudProvider.from_str (CloudProvider.value c) = Ok c)
  /\ (forall i : ItemType.t, ItemType.from_str (ItemType.value i) = Ok i).
Proof. repeat split; by intros []. Qed.

(** The strings accepted are the values, not the names of the members. *)
Example from_str_names :
  Product.from_str "sfc" = Ok Product.surface
  /\ Product.from_str "surface"
     = Raise (ValueError "Could not parse value from string: surface")
  /\ ForecastHourSet.from_str "fh02-48" = Ok ForecastHourSet.FH02_48
  /\ ForecastHourSet.from_str "FH02_48"
     = Raise (ValueError "Could not parse value from string: FH02_48").
Proof. by repeat split. Qed.

(** ** Forecast cycle types *)

Lemma cycle_type_new_cases (type : str) :
  ForecastCycleType.new type
  = if decide (type = "standard") then
      Ok {| ForecastCycleType.type := "standard";
            ForecastCycleType.max_forecast_hour := 18 |}
    else if decide (type = "extended") then
      Ok {| ForecastCycleType.type := "extended";
            ForecastCycleType.max_forecast_hour := 48 |}
    else Raise (ValueError "Invalid forecast cycle type").
Proof.
  unfold ForecastCycleType.new.
  destruct (decide (type = "standard")) as [->|Hs]; [done|].
  destruct (decide (type = "extended")) as [->|He]; [done|].
  rewrite bool_decide_eq_false_2; [done|].
  rewrite !elem_of_cons, elem_of_nil. tauto.
Qed.

(** X3: a forecast cycle type is constructed exactly from the strings
    "standard" and "extended", with 18 and 48 as largest forecast hour;
    every other string raises the invalid-type error. *)
Theorem X3_cycle_type_construction (type : str) :
  ForecastCycleType.new type
  = if decide (type = "standard") then
      Ok {| ForecastCycleType.type := "standard";
            ForecastCycleType.max_forecast_hour := 18 |}
    else if decide (type = "extended") then
      Ok {| ForecastCycleType.type := "extended";
            ForecastCycleType.max_forecast_hour := 48 |}
    else Raise (ValueError "Invalid forecast cycle type").
Proof. apply cycle_type_new_cases. Qed.

(** X4: the forecast hours that a cycle type generates are exactly
    1, ..., [max_forecast_hour]; each of them passes
    [validate_forecast_hour].  Hour 0 passes the validation as well and
    is not generated. *)
Theorem X4_generated_hours_are_valid (type : str)
  (cycle : ForecastCycleType.t) :
  ForecastCycleType.new type = Ok cycle ->
  (forall h : Z,
     h ∈ ForecastCycleType.generate_forecast_hours cycle
     <-> 1 <= h <= ForecastCycleType.max_forecast_hour cycle)
  /\ (forall h : Z,
        h ∈ ForecastCycleType.generate_forecast_hours cycle ->
        ForecastCycleType.validate_forecast_hour cycle h = Ok ())
  /\ ForecastCycleType.validate_forecast_hour cycle 0 = Ok ()
  /\ 0 ∉ ForecastCycleType.generate_forecast_hours cycle.
Proof.
  intros Hnew.
  assert (forall h : Z,
            h ∈ ForecastCycleType.generate_forecast_hours cycle
            <-> 1 <= h <= ForecastCycleType.max_forecast_hour cycle) as Hgen.
  { intros h. unfold ForecastCycleType.generate_forecast_hours, range.
    rewrite elem_of_seqZ. lia. }
  assert (0 <= ForecastCycleType.max_forecast_hour cycle) as Hmax.
  { rewrite cycle_type_new_cases in Hnew.
    repeat case_decide; simplify_eq; simpl; lia. }
  split; [done|]. split; [|split].
  - intros h Hh%Hgen. unfold ForecastCycleType.validate_forecast_hour.
    destruct (Z.leb_spec 0 h); [|lia].
    by destruct (Z.leb_spec h (ForecastCycleType.max_forecast_hour cycle));
      [|lia].
  - unfold ForecastCycleType.validate_forecast_hour. simpl.
    by destruct (Z.leb_spec 0 (ForecastCycleType.max_forecast_hour cycle));
      [|lia].
  - rewrite Hgen. lia.
Qed.

(** The extended cycle type with the hours 1, ..., 48. *)
Lemma X4_generated_hours_are_valid_witness :
  ForecastCycleType.new "extended"
  = Ok {| ForecastCycleType.type := "extended";
          ForecastCycleType.max_forecast_hour := 48 |}
  /\ (forall h : Z,
        h ∈ ForecastCycleType.generate_forecast_hours
              {| ForecastCycleType.type := "extended";
                 ForecastCycleType.max_forecast_hour := 48 |}
        <-> 1 <= h <= 48)
  /\ (forall h : Z,
        h ∈ ForecastCycleType.generate_forecast_hours
              {| ForecastCycleType.type := "extended";
                 ForecastCycleType.max_forecast_hour := 48 |} ->
        ForecastCycleType.validate_forecast_hour
          {| ForecastCycleType.type := "extended";
             ForecastCycleType.max_forecast_hour := 48 |} h
        = Ok ())
  /\ ForecastCycleType.validate_forecast_hour
       {| ForecastCycleType.type := "extended";
          ForecastCycleType.max_forecast_hour := 48 |} 0
     = Ok ()
  /\ 0 ∉ ForecastCycleType.generate_forecast_hours
           {| ForecastCycleType.type := "extended";
              ForecastCycleType.max_forecast_hour := 48 |}.
Proof.
  split; [reflexivity|].
  apply (X4_generated_hours_are_valid "extended"). reflexivity.
Defined.


Example X5_samples :
  (cycle ← ForecastCycleType.from_timestamp
             {| year := 2024; month := 5; day := 1; hour := 3 |};
   ForecastCycleType.validate_forecast_hour cycle 30)
  = Raise (ValueError (cycle_bound_message 30 "standard"))
  /\ (cycle ← ForecastCycleType.from_timestamp
                {| year := 2024; month := 5; day := 1; hour := 6 |};
      ForecastCycleType.validate_forecast_hour cycle 30)
     = Ok ().
Proof. by split. Qed.

(** ** The errors of [from_template] *)

(** The nearest double is finite for every integer below [2^1023] in
    magnitude. *)
Lemma nearest_double_overflow (q : Z) (msg : str) :
  nearest_double q = Raise (OverflowError msg) -> 2 ^ 1023 <= Z.abs q.
Proof.
  unfold nearest_double.
  destruct (Z.ltb_spec (Z.abs q) (2 ^ 53)) as [|Hbig]; [done|].
  set (a := Z.abs q) in *. set (e := Z.log2 a - 52).
  set (m := Z.shiftr a e).
  destruct (2 ^ 1024 <=? _) eqn:Hov; [|done]. intros _.
  apply Z.leb_le in Hov.
  assert (0 < a) as Hpos by lia.
  destruct (Z.log2_spec a Hpos) as [Hlo Hhi].
  assert (53 <= Z.log2 a) as Hlog.
  { apply Z.log2_le_pow2; lia. }
  assert (0 <= e) as He by (unfold e; lia).
  assert (m < 2 ^ 53) as Hm.
  { unfold m. rewrite Z.shiftr_div_pow2 by done.
    apply Z.div_lt_upper_bound; [lia|].
    rewrite <- Z.pow_add_r by lia.
    replace (e + 53) with (Z.succ (Z.log2 a)) by (unfold e; lia). done. }
  destruct (Z.le_gt_cases 1023 (Z.log2 a)) as [Hge|Hlt].
  { etrans; [|exact Hlo]. apply Z.pow_le_mono_r; lia. }
  exfalso.
  set (m' := if _ : bool then m + 1 else m) in Hov.
  assert (m' <= 2 ^ 53) as Hm' by (unfold m'; destruct (_ || _); lia).
  rewrite Z.shiftl_mul_pow2 in Hov by done.
  assert (m' * 2 ^ e <= 2 ^ 53 * 2 ^ e) as Hle.
  { apply Z.mul_le_mono_nonneg_r; [lia|done]. }
  rewrite <- Z.pow_add_r in Hle by lia.
  assert (2 ^ (53 + e) < 2 ^ 1024) as Hlt2.
  { apply Z.pow_lt_mono_r; unfold e; lia. }
  lia.
Qed.

Lemma nearest_double_raises (q : Z) (e : exn) :
  nearest_double q = Raise e -> exists msg : str, e = OverflowError msg.
Proof.
  unfold nearest_double. destruct (Z.abs q <? 2 ^ 53); [done|].
  destruct (2 ^ 1024 <=? _); [|done]. intros [= <-]. by eexists.
Qed.


(** What [expand_forecast_valid] can raise. *)
Lemma expand_errors (forecast_hour : Z) (t : str) (e : exn) :
  Variable_.expand_forecast_valid forecast_hour t = Raise e ->
  (e = ValueError
         (t ++ " could not be parsed into a forecast_valid string")
   /\ ~ recognized t)
  \/ (exists msg : str,
        e = OverflowError msg /\ forecast_hour mod 24 = 0
        /\ 24 * 2 ^ 1023 <= Z.abs forecast_hour).
Proof.
  unfold Variable_.expand_forecast_valid.
  destruct (decide (t = "analysis")) as [->|Hna]; [done|].
  destruct (search FCST_PATTERN t) as [groups|] eqn:Hf.
  { apply search_fcst_groups in Hf as (N & time_unit & -> & HN & _).
    destruct (decide (time_unit = "min")); [|done].
    by rewrite (py_int_digits N HN). }
  destruct (search INTERVAL_PATTERN t) as [groups|] eqn:Hi.
  { apply search_interval_groups in Hi
      as (N1 & N2 & time_unit & stat & -> & H1 & H2 & _ & _).
    destruct (decide (time_unit = "min")).
    { by rewrite (py_int_digits N1 H1), (py_int_digits N2 H2). }
    destruct (Z.eqb_spec (forecast_hour mod 24) 0) as [Hday|_]; [|done].
    destruct (nearest_double (forecast_hour / 24)) as [d|e'] eqn:Hd; [done|].
    simpl. intros [= <-]. right.
    destruct (nearest_double_raises _ _ Hd) as [msg ->].
    exists msg. split; [done|]. split; [done|].
    apply nearest_double_overflow in Hd.
    rewrite (Z.div_mod forecast_hour 24) at 1 by done.
    rewrite Hday, Z.add_0_r, Z.abs_mul. simpl Z.abs at 1. lia. }
  intros [= <-]. left. split; [done|]. by apply not_recognized_search.
Qed.


(** X7: the template "analysis" is written back as "analysis" at
    forecast hour 0 only; at every other forecast hour it expands to the
    very variable that a template "<N> hour fcst" expands to. *)
Theorem X7_analysis_template (forecast_hour : Z) (N : str)
  (row_number : Z) (level_layer parameter description : str) :
  digits N = true ->
  Variable_.from_template forecast_hour "analysis" row_number level_layer
    parameter description
  = if forecast_hour =? 0 then
      Ok {| Variable_.row_number := row_number;
            Variable_.level_layer := level_layer;
            Variable_.parameter := parameter;
            Variable_.forecast_valid := "analysis";
            Variable_.description := description |}
    else
      Variable_.from_template forecast_hour (single_instant N "hour")
        row_number level_layer parameter description.
Proof.
  intros HN. rewrite !from_template_forecast_valid.
  rewrite (expand_single_instant forecast_hour N "hour" HN eq_refl).
  simpl. by destruct (forecast_hour =? 0).
Qed.

(** The templates "analysis" and "3 hour fcst" at forecast hour 7. *)
Lemma X7_analysis_template_witness :
  digits "3" = true
  /\ Variable_.from_template 7 "analysis" 2 "2 m above ground" "TMP"
       "Temperature"
     = (if 7 =? 0 then
          Ok {| Variable_.row_number := 2;
                Variable_.level_layer := "2 m above ground";
                Variable_.parameter := "TMP";
                Variable_.forecast_valid := "analysis";
                Variable_.description := "Temperature" |}
        else
          Variable_.from_template 7 (single_instant "3" "hour")
            2 "2 m above ground" "TMP" "Temperature").
Proof.
  split; [reflexivity|].
  apply (X7_analysis_template 7 "3"). reflexivity.
Defined.

(** ** Forecast hour sets and the inventory *)

(** X8: every forecast hour that a set of a product enumerates leads
    back to that set: [from_forecast_hour_and_product] accepts the hour
    and selects the set it came from. *)
Theorem X8_enumerate_then_select (product : Product.t)
  (s : ForecastHourSet.t) (hours : list Z) (h : Z) :
  s ∈ PRODUCT_FORECAST_HOUR_SETS product ->
  ForecastHourSet.generate_forecast_hours s = Ok hours ->
  h ∈ hours ->
  ForecastHourSet.from_forecast_hour_and_product h product = Ok s.
Proof.
  intros Hs Hgen Hh.
  assert ((hour_bounds s).1 <= h <= (hour_bounds s).2) as Hb.
  { apply generate_forecast_hours_elem. by exists hours. }
  unfold ForecastHourSet.from_forecast_hour_and_product.
  destruct product; simpl in Hs;
    rewrite !elem_of_cons, elem_of_nil in Hs;
    destruct Hs as [->|[->|[]]]; simpl in Hb |- *;
    destruct (Z.leb_spec 0 h), (Z.leb_spec h 48); try lia; simpl;
    destruct (Z.ltb_spec h 2), (Z.eqb_spec h 0); (done || lia).
Qed.

(** Hour 18 of the sub-hourly set FH01-18. *)
Lemma X8_enumerate_then_select_witness :
  ForecastHourSet.FH01_18 ∈ PRODUCT_FORECAST_HOUR_SETS Product.sub_hourly
  /\ ForecastHourSet.generate_forecast_hours ForecastHourSet.FH01_18
     = Ok (seqZ 1 18)
  /\ 18 ∈ seqZ 1 18
  /\ ForecastHourSet.from_forecast_hour_and_product 18 Product.sub_hourly
     = Ok ForecastHourSet.FH01_18.
Proof.
  assert (ForecastHourSet.FH01_18
          ∈ PRODUCT_FORECAST_HOUR_SETS Product.sub_hourly) as Hs.
  { simpl. rewrite !elem_of_cons. tauto. }
  assert (18 ∈ seqZ 1 18) as Hh by (apply elem_of_seqZ; lia).
  split; [exact Hs|]. split; [reflexivity|]. split; [exact Hh|].
  exact (X8_enumerate_then_select Product.sub_hourly ForecastHourSet.FH01_18
           (seqZ 1 18) 18 Hs eq_refl Hh).
Defined.

Lemma list_comprehension_error {A B : Type} (f : A -> result B)
  (xs : list A) (e : exn) :
  list_comprehension f xs = Raise e -> exists x, x ∈ xs /\ f x = Raise e.
Proof.
  induction xs as [|x xs IH]; simpl; [done|].
  destruct (f x) as [y|e'] eqn:Hx; simpl.
  - destruct (list_comprehension f xs) as [ys|e'']; simpl; [done|].
    intros [= ->]. destruct (IH eq_refl) as (x' & Hin & Hx').
    exists x'. split; [apply elem_of_cons; by right|done].
  - intros [= ->]. exists x. split; [apply elem_of_cons; by left|done].
Qed.

Lemma dict_comprehension_error {V : Type} (f : Z -> result V)
  (keys : list Z) (acc : gmap Z V) (e : exn) :
  dict_comprehension f keys acc = Raise e ->
  exists k, k ∈ keys /\ f k = Raise e.
Proof.
  revert acc. induction keys as [|k keys IH]; intros acc; simpl; [done|].
  destruct (f k) as [v|e'] eqn:Hk; simpl.
  - intros (k' & Hin & Hk')%IH.
    exists k'. split; [apply elem_of_cons; by right|done].
  - intros [= ->]. exists k. split; [apply elem_of_cons; by left|done].
Qed.


Section InventoryKeys.

Variable inventory_json :
  Region.t -> Product.t -> ForecastHourSet.t -> list Template.t.

(** X9: the template inventory is filled once for every region and
    every forecast hour set of every product, sixteen keys in all and no
    key twice; a key is present exactly when its set is one of the sets
    of its product, and it holds the content of the file of its own
    triple. *)
Theorem X9_template_inventory_keys :
  length (TEMPLATE_INVENTORY inventory_json) = 16%nat
  /\ NoDup (TEMPLATE_INVENTORY inventory_json).*1
  /\ forall (region : Region.t) (product : Product.t)
       (forecast_hour_set : ForecastHourSet.t),
       ((region, product, forecast_hour_set)
        ∈ (TEMPLATE_INVENTORY inventory_json).*1
        <-> forecast_hour_set ∈ PRODUCT_FORECAST_HOUR_SETS product)
       /\ inventory_lookup inventory_json
            (region, product, forecast_hour_set)
          = if bool_decide
                 (forecast_hour_set ∈ PRODUCT_FORECAST_HOUR_SETS product)
            then Ok (inventory_json region product forecast_hour_set)
            else Raise KeyError.
Proof.
  split; [done|]. split.
  - simpl. apply (bool_decide_unpack _). by vm_compute.
  - intros region product forecast_hour_set. split.
    + etrans; [symmetry; apply bool_decide_spec|].
      etrans; [|apply bool_decide_spec].
      by destruct region, product, forecast_hour_set; vm_compute.
    + by destruct region, product, forecast_hour_set.
Qed.


(** X10: the construction of a [CycleRunConfig] raises [KeyError]
    exactly for a forecast hour set that is not one of the sets of the
    product; the region plays no part in it. *)
Theorem X10_cycle_run_config_key_error (region : Region.t)
  (product : Product.t) (forecast_hour_set : ForecastHourSet.t) :
  CycleRunConfig_new inventory_json region product forecast_hour_set
  = Raise KeyError
  <-> forecast_hour_set ∉ PRODUCT_FORECAST_HOUR_SETS product.
Proof.
  unfold CycleRunConfig_new. rewrite generate_forecast_hours_range.
  assert (exists (h : Z) (hours : list Z),
            seqZ (hour_bounds forecast_hour_set).1
              ((hour_bounds forecast_hour_set).2
               - (hour_bounds forecast_hour_set).1 + 1) = h :: hours)
    as (h0 & hours & Hhours).
  { destruct forecast_hour_set; simpl; by eexists _, _. }
  simpl. rewrite inventory_lookup_registered.
  destruct (bool_decide_reflect
              (forecast_hour_set ∈ PRODUCT_FORECAST_HOUR_SETS product))
    as [Hreg|Hreg].
  - split; [|done]. intros Herr. exfalso.
    destruct (dict_comprehension _ _ _) as [m|e] eqn:Hd; [done|].
    simpl in Herr. injection Herr as ->.
    apply dict_comprehension_error in Hd as (k & _ & Hk). simpl in Hk.
    apply list_comprehension_error in Hk as (template & _ & Ht).
    unfold expand_template in Ht.
    rewrite from_template_forecast_valid in Ht.
    destruct (Variable_.expand_forecast_valid _ _) as [fv|e] eqn:He; [done|].
    injection Ht as ->.
    by destruct (expand_errors _ _ _ He) as [[? _]|(msg & ? & _)].
  - split; [done|]. intros _. by rewrite Hhours.
Qed.

End InventoryKeys.

Section SelectThenBuild.

Variable inventory_json :
  Region.t -> Product.t -> ForecastHourSet.t -> list Template.t.


End SelectThenBuild.


(** ** Names built from the format strings *)

(** X12: the file name of an inventory key is
    "inventory__<region>__<product>__<set>.json" over the values of the
    three members, and two keys have the same file name only when they
    are the same key: no two keys of the inventory read the same file. *)
Theorem X12_inventory_file_names (region region' : Region.t)
  (product product' : Product.t)
  (forecast_hour_set forecast_hour_set' : ForecastHourSet.t) :
  inventory_file_name region product forecast_hour_set
  = Ok ("inventory__" ++ Region.value region ++ "__"
        ++ Product.value product ++ "__"
        ++ ForecastHourSet.value forecast_hour_set ++ ".json")
  /\ (inventory_file_name region product forecast_hour_set
      = inventory_file_name region' product' forecast_hour_set'
      <-> (region, product, forecast_hour_set)
          = (region', product', forecast_hour_set')).
Proof.
  split; [by destruct region, product, forecast_hour_set|].
  split; [|by intros [= -> -> ->]].
  destruct region, region'; vm_compute; try (intros H; discriminate H);
    destruct product, product'; vm_compute; try (intros H; discriminate H);
    destruct forecast_hour_set, forecast_hour_set'; vm_compute;
    intros H; first [reflexivity | discriminate H].
Qed.

(** X13: the collection id is
    "noaa-hrrr-<region>-<product>-<set>" over the values of the three
    members, and two collections have the same id only when region,
    product and forecast hour set agree, although the values of the sets
    hold hyphens themselves. *)
Theorem X13_collection_ids (region region' : Region.t)
  (product product' : Product.t)
  (forecast_hour_set forecast_hour_set' : ForecastHourSet.t) :
  collection_id region product forecast_hour_set
  = Ok ("noaa-hrrr-" ++ Region.value region ++ "-"
        ++ Product.value product ++ "-"
        ++ ForecastHourSet.value forecast_hour_set)
  /\ (collection_id region product forecast_hour_set
      = collection_id region' product' forecast_hour_set'
      <-> (region, product, forecast_hour_set)
          = (region', product', forecast_hour_set')).
Proof.
  split; [by destruct region, product, forecast_hour_set|].
  split; [|by intros [= -> -> ->]].
  destruct region, region'; vm_compute; try (intros H; discriminate H);
    destruct product, product'; vm_compute; try (intros H; discriminate H);
    destruct forecast_hour_set, forecast_hour_set'; vm_compute;
    intros H; first [reflexivity | discriminate H].
Qed.

(** A field of the format string without a keyword argument is a
    [KeyError]; a brace that is not closed is a [ValueError]. *)
Example format_errors :
  format INVENTORY_JSON_FORMAT
    [(("region" : str), ("conus" : str)); (("product" : str), ("sfc" : str))]
  = Raise KeyError
  /\ format "inventory__{region" [(("region" : str), ("conus" : str))]
     = Raise (ValueError "expected '}' before end of string").
Proof. by split. Qed.

(** ** Cycle run hours *)

(** X14: the runs of the conus region start at every hour of the day,
    those of the alaska region at the hours that are multiples of 3.  A
    start hour is a run hour of both regions and gives the extended cycle
    type exactly when it is a multiple of 6 within the day. *)
Theorem X14_cycle_run_hours (reference_datetime : datetime) :
  (hour reference_datetime ∈ cycle_run_hours Region.conus
   <-> 0 <= hour reference_datetime <= 23)
  /\ (hour reference_datetime ∈ cycle_run_hours Region.alaska
      <-> 0 <= hour reference_datetime <= 23
          /\ hour reference_datetime mod 3 = 0)
  /\ ((forall region : Region.t,
         hour reference_datetime ∈ cycle_run_hours region)
      /\ (exists cycle : ForecastCycleType.t,
            ForecastCycleType.from_timestamp reference_datetime = Ok cycle
            /\ ForecastCycleType.type cycle = "extended")
      <-> 0 <= hour reference_datetime <= 23
          /\ hour reference_datetime mod 6 = 0).
Proof.
  set (h := hour reference_datetime).
  assert (h ∈ cycle_run_hours Region.conus <-> 0 <= h <= 23) as Hconus.
  { unfold cycle_run_hours, range. rewrite elem_of_seqZ. lia. }
  assert (h ∈ cycle_run_hours Region.alaska <-> 0 <= h <= 23 /\ h mod 3 = 0)
    as Halaska.
  { unfold cycle_run_hours, range_step. rewrite list_elem_of_fmap.
    change ((24 - 0 + 3 - 1) / 3) with 8. split.
    - intros (i & -> & Hi%elem_of_seqZ).
      rewrite Z.add_0_l, Z.mod_mul by done. lia.
    - intros [Hh H3]. exists (h / 3). split.
      + rewrite (Z.div_mod h 3) at 1 by done. lia.
      + apply elem_of_seqZ. Z.div_mod_to_equations. lia. }
  split; [done|]. split; [done|].
  unfold ForecastCycleType.from_timestamp. fold h. split.
  - intros [Hall (cycle & Hc & Ht)].
    split; [by apply Hconus, Hall|].
    destruct (Z.eqb_spec (h mod 6) 0) as [|Hne]; [done|].
    simpl in Hc. injection Hc as <-. done.
  - intros [Hh H6]. split.
    + intros []; [by apply Hconus|].
      apply Halaska. split; [done|]. Z.div_mod_to_equations. lia.
    + rewrite H6. simpl. by eexists.
Qed.

Example cycle_run_hours_samples :
  cycle_run_hours Region.alaska = [0; 3; 6; 9; 12; 15; 18; 21]
  /\ length (cycle_run_hours Region.conus) = 24%nat.
Proof. by split. Qed.


(** X15: for every forecast hour set the generator returns, without
    raising, the consecutive hours from a first to a last hour within
    [0,48], and the value of the set spells these two hours: "fh", the
    first hour in two digits and, unless the set is a single hour, a
    hyphen and the last hour in two digits. *)
Theorem X15_set_value_spells_hours (s : ForecastHourSet.t) :
  exists first last : Z,
    ForecastHourSet.generate_forecast_hours s
    = Ok (seqZ first (last - first + 1))
    /\ 0 <= first <= last /\ last <= 48
    /\ ForecastHourSet.value s
       = "fh" ++ two_digits first
         ++ (if decide (first = last) then [] else "-" ++ two_digits last).
Proof.
  exists (hour_bounds s).1, (hour_bounds s).2.
  split; [apply generate_forecast_hours_range|].
  destruct s; simpl; repeat split; (lia || done).
Qed.

(** ** Item ids *)








